(** * dropwhile/assert: the comparator, the nilness check, the message
      formatter and the public assertion functions of [assert.go].

    The file [assert.go] holds two versions of the package; the second one
    (with [msgAndArgs ...any], [ErrorAs] and the printf-style [formatMsg])
    is the one embedded here.

    Go values are embedded as the contents of an [any] interface: a dynamic
    type together with a representation.  Reference-like values carry the
    address they point to, so that identity ([==] on pointers, the identity
    short cuts of [reflect.DeepEqual]) can be told apart from structure.
    Values are finite trees: cyclic data is outside the model. *)

From Stdlib Require Import ZArith NArith List String Ascii Bool Lia.
From Stdlib Require Import Floats.PrimFloat.
Import ListNotations.
Open Scope string_scope.

Set Implicit Arguments.

(** ** Types and values *)

Module reflect.

  (** [reflect.Kind]. *)
Inductive Kind : Set :=
  | Invalid | Bool | Int | Int8 | Int16 | Int32 | Int64
  | Uint | Uint8 | Uint16 | Uint32 | Uint64 | Uintptr
  | Float32 | Float64 | Complex64 | Complex128
  | Array | Chan | Func | Interface | Map | Pointer | Slice
  | String | Struct | UnsafePointer.

Definition Kind_eq_dec (a b : Kind) : {a = b} + {a <> b}.
  Proof. decide equality. Defined.

End reflect.

(** A Go type.  A defined (named) type is identified by its qualified name
    and remembers the kind of its underlying type; predeclared types are
    [TBasic]; the remaining constructors are the composite type literals. *)
Inductive gotype : Set :=
| TBasic (k : reflect.Kind)
| TNamed (name : string) (k : reflect.Kind)
| TInterface (name : string)
| TFunc (signature : string)
| TChan (elem : gotype)
| TMap (key elem : gotype)
| TPointer (elem : gotype)
| TSlice (elem : gotype)
| TArray (len : nat) (elem : gotype).

Definition gotype_eq_dec (a b : gotype) : {a = b} + {a <> b}.
Proof.
  decide equality;
    solve [ apply reflect.Kind_eq_dec | apply string_dec | apply Nat.eq_dec ].
Defined.

Definition gotype_eqb (a b : gotype) : bool :=
  if gotype_eq_dec a b then true else false.

Definition kind_of_type (ty : gotype) : reflect.Kind :=
  match ty with
  | TBasic k | TNamed _ k => k
  | TInterface _ => reflect.Interface
  | TFunc _ => reflect.Func
  | TChan _ => reflect.Chan
  | TMap _ _ => reflect.Map
  | TPointer _ => reflect.Pointer
  | TSlice _ => reflect.Slice
  | TArray _ _ => reflect.Array
  end.

(** Addresses of heap objects (the target of a pointer, the backing array of
    a slice, a map header, a channel, a function's code). *)
Definition addr := N.

(** The contents of an [any].  [VNil] is the nil interface.  For the kinds
    that can be nil the representation is [None] for the typed nil and
    [Some] of the address (and, where it can be read, the contents)
    otherwise.  [VType] is a [reflect.Type] descriptor, which is a non-nil
    pointer to the runtime's type record. *)
#[warnings="-register-all"]
Inductive value : Type :=
| VNil
| VBool (ty : gotype) (b : bool)
| VInt (ty : gotype) (n : Z)
| VFloat (ty : gotype) (f : float)
| VString (ty : gotype) (s : string)
| VChan (ty : gotype) (c : option addr)
| VFunc (ty : gotype) (f : option addr)
| VMap (ty : gotype) (m : option (addr * list (value * value)))
| VPointer (ty : gotype) (p : option (addr * value))
| VSlice (ty : gotype) (s : option (addr * list value))
| VArray (ty : gotype) (elems : list value)
| VStruct (ty : gotype) (fields : list value)
| VType (described : gotype).

Definition any := value.

(** The type of [reflect.Type] descriptors, [*reflect.rtype]. *)
Definition rtype : gotype := TPointer (TNamed "reflect.rtype" reflect.Struct).

(** Dynamic type of a value; the nil interface has none. *)
Definition TypeOf (v : any) : option gotype :=
  match v with
  | VNil => None
  | VBool ty _ | VInt ty _ | VFloat ty _ | VString ty _
  | VChan ty _ | VFunc ty _ | VMap ty _ | VPointer ty _ | VSlice ty _
  | VArray ty _ | VStruct ty _ => Some ty
  | VType _ => Some rtype
  end.

(** [reflect.ValueOf(v).Kind()]: the kind is fixed by the representation,
    the numeric kinds are read off the type. *)
Definition KindOf (v : any) : reflect.Kind :=
  match v with
  | VNil => reflect.Invalid
  | VBool _ _ => reflect.Bool
  | VInt ty _ | VFloat ty _ => kind_of_type ty
  | VString _ _ => reflect.String
  | VChan _ _ => reflect.Chan
  | VFunc _ _ => reflect.Func
  | VMap _ _ => reflect.Map
  | VPointer _ _ | VType _ => reflect.Pointer
  | VSlice _ _ => reflect.Slice
  | VArray _ _ => reflect.Array
  | VStruct _ _ => reflect.Struct
  end.

(** [reflect.Value.IsNil], on the kinds for which it is defined. *)
Definition IsNil (v : any) : bool :=
  match v with
  | VChan _ None | VFunc _ None | VMap _ None
  | VPointer _ None | VSlice _ None => true
  | _ => false
  end.

(** ** The nilness check, [isNil] *)

Definition isNil (v : any) : bool :=
  match v with
  | VNil => true
  | _ =>
      match KindOf v with
      | reflect.Chan | reflect.Func | reflect.Interface
      | reflect.Map | reflect.Pointer | reflect.Slice => IsNil v
      | _ => false
      end
  end.

(** ** The host environment

    [==] on comparable values, [bytes.Equal], [strings.Contains] and
    [reflect.DeepEqual] are modelled after the Go standard library; what
    depends on the program under test or on larger packages stays abstract
    in the class [Host] further down. *)

Definition option_eqb {A} (eqb : A -> A -> bool) (x y : option A) : bool :=
  match x, y with
  | None, None => true
  | Some a, Some b => eqb a b
  | _, _ => false
  end.

Definition sameType (x y : option gotype) : bool := option_eqb gotype_eqb x y.

(** Address held by a reference; [None] for nil. *)
Definition pointerOf {A} (r : option (addr * A)) : option addr :=
  option_map fst r.

(** The [==] operator on two interface values.  Func, map and slice values
    are not comparable; the model answers false for them. *)
Fixpoint go_eq (x y : value) {struct x} : bool :=
  match x, y with
  | VNil, VNil => true
  | VBool t1 a, VBool t2 b => gotype_eqb t1 t2 && Bool.eqb a b
  | VInt t1 a, VInt t2 b => gotype_eqb t1 t2 && Z.eqb a b
  | VFloat t1 a, VFloat t2 b => gotype_eqb t1 t2 && PrimFloat.eqb a b
  | VString t1 a, VString t2 b => gotype_eqb t1 t2 && String.eqb a b
  | VChan t1 a, VChan t2 b => gotype_eqb t1 t2 && option_eqb N.eqb a b
  | VPointer t1 a, VPointer t2 b =>
      gotype_eqb t1 t2 && option_eqb N.eqb (pointerOf a) (pointerOf b)
  | VType a, VType b => gotype_eqb a b
  | VArray t1 xs, VArray t2 ys | VStruct t1 xs, VStruct t2 ys =>
      gotype_eqb t1 t2 &&
      (fix all2 (l1 l2 : list value) {struct l1} : bool :=
         match l1, l2 with
         | [], [] => true
         | a :: l1', b :: l2' => go_eq a b && all2 l1' l2'
         | _, _ => false
         end) xs ys
  | _, _ => false
  end.

(** [v1.MapIndex(k)]. *)
Fixpoint MapIndex (m : list (value * value)) (k : value) : option value :=
  match m with
  | [] => None
  | (k', v) :: m' => if go_eq k' k then Some v else MapIndex m' k
  end.

Module bytes.
  (** A [[]byte]: nil, or a backing array and its elements. *)
Definition t := option (addr * list Z).

Definition elems (s : t) : list Z :=
    match s with None => [] | Some (_, l) => l end.

Fixpoint eq_elems (a b : list Z) : bool :=
    match a, b with
    | [], [] => true
    | x :: a', y :: b' => Z.eqb x y && eq_elems a' b'
    | _, _ => false
    end.

  (** [bytes.Equal(a, b)] is [string(a) == string(b)]: a nil argument is
      equivalent to an empty slice. *)
Definition Equal (a b : t) : bool := eq_elems (elems a) (elems b).
End bytes.

Module strings.
Fixpoint HasPrefix (s prefix : string) : bool :=
    match prefix, s with
    | EmptyString, _ => true
    | String c p', String d s' => Ascii.eqb c d && HasPrefix s' p'
    | String _ _, EmptyString => false
    end.

  (** [strings.Contains(s, substr)]. *)
Fixpoint Contains (s substr : string) : bool :=
    HasPrefix s substr ||
    match s with
    | EmptyString => false
    | String _ s' => Contains s' substr
    end.

(** [strings.Join(elems, sep)]. *)
Fixpoint Join (elems : list string) (sep : string) : string :=
  match elems with
  | [] => ""
  | [a] => a
  | a :: rest => a ++ sep ++ Join rest sep
  end.
End strings.

(** [reflect.DeepEqual]'s recursion, case by case as in [deepequal.go]
    (without the visited set, which only matters for cyclic data).  An
    element of interface type is its dynamic value, [VNil] when the
    interface is nil, so the [Interface] case is the pair of first rows. *)
Fixpoint deepValueEqual (v1 v2 : value) {struct v1} : bool :=
  let all2 :=
    fix all2 (l1 l2 : list value) {struct l1} : bool :=
      match l1, l2 with
      | [], [] => true
      | a :: l1', b :: l2' => deepValueEqual a b && all2 l1' l2'
      | _, _ => false
      end in
  match v1, v2 with
  | VNil, VNil => true
  | VNil, _ | _, VNil => false
  | _, _ =>
    if negb (sameType (TypeOf v1) (TypeOf v2)) then false else
    match v1, v2 with
    | VArray _ xs, VArray _ ys | VStruct _ xs, VStruct _ ys => all2 xs ys
    | VSlice _ None, VSlice _ None => true
    | VSlice _ (Some (p1, xs)), VSlice _ (Some (p2, ys)) =>
        if negb (Nat.eqb (List.length xs) (List.length ys)) then false
        else if N.eqb p1 p2 then true
        else all2 xs ys
    | VPointer _ None, VPointer _ None => true
    | VPointer _ (Some (p1, x)), VPointer _ (Some (p2, y)) =>
        if N.eqb p1 p2 then true else deepValueEqual x y
    | VMap _ None, VMap _ None => true
    | VMap _ (Some (p1, m1)), VMap _ (Some (p2, m2)) =>
        if negb (Nat.eqb (List.length m1) (List.length m2)) then false
        else if N.eqb p1 p2 then true
        else (fix each (l : list (value * value)) : bool :=
                match l with
                | [] => true
                | (k, val1) :: l' =>
                    match MapIndex m2 k with
                    | Some val2 => deepValueEqual val1 val2 && each l'
                    | None => false
                    end
                end) m1
    | VFunc _ None, VFunc _ None => true
    | VFunc _ _, VFunc _ _ => false
    | VBool _ _, _ | VInt _ _, _ | VFloat _ _, _ | VString _ _, _
    | VChan _ _, _ | VType _, _ => go_eq v1 v2
    | _, _ => false
    end
  end.

(** [reflect.DeepEqual(x, y)]. *)
Definition DeepEqual (x y : any) : bool :=
  match x, y with
  | VNil, _ | _, VNil => go_eq x y
  | _, _ =>
      if negb (sameType (TypeOf x) (TypeOf y)) then false
      else deepValueEqual x y
  end.

(** ** Outcomes

    A call returns, or panics, or never comes back because the reporting
    handle ended the goroutine inside a fatal report ([runtime.Goexit]). *)

Inductive fault : Type :=
| NilDereference
| InterfaceConversion (dynamic : option gotype) (asserted : gotype)
| InvalidTarget.

Inductive outcome (A : Type) : Type :=
| Return (a : A)
| Panic (f : fault)
| Goexit.
Arguments Panic {A} f.
Arguments Goexit {A}.

(** What the package takes from the program under test (method sets of the
    values compared) and from packages that are not modelled here. *)
Class Host : Type := {
  (** [method_Equal dyn T]: the method [Equal(T) bool] of dynamic type [dyn] *)
  method_Equal : gotype -> gotype -> option (value -> value -> bool);
  (** the method [Error() string] of a dynamic type *)
  method_Error : gotype -> option (value -> string);
  fmt_Sprint : list any -> string;
  fmt_Sprintf : string -> list any -> string;
  errors_Is : any -> any -> bool;
  (** [errors.As] panics on a target that is not a non-nil pointer *)
  errors_As : any -> any -> outcome bool;
  (** [reflect.New(w).Interface()] *)
  reflect_New : gotype -> any;
  (** [regexp.MatchString(pattern, s)]: matched, and the message of err *)
  regexp_MatchString : string -> string -> bool * option string
}.

Definition tstring : gotype := TBasic reflect.String.
Definition tbytes : gotype := TSlice (TBasic reflect.Uint8).
Definition tany : gotype := TInterface "any".

(** Only defined types and pointers to them have methods. *)
Definition hasMethods (dyn : gotype) : bool :=
  match dyn with
  | TNamed _ _ | TPointer (TNamed _ _) => true
  | _ => false
  end.

(** The type assertion [any(got).(equaler[T])]. *)
Definition equaler `{Host} (T : gotype) (got : any)
  : option (value -> value -> bool) :=
  match TypeOf got with
  | Some dyn => if hasMethods dyn then method_Equal dyn T else None
  | None => None
  end.

Definition byteOf (v : value) : Z :=
  match v with VInt _ n => n | _ => 0%Z end.

(** The type assertion [v.([]byte)]. *)
Definition assertBytes (v : any) : option bytes.t :=
  match v with
  | VSlice ty s =>
      if gotype_eqb ty tbytes
      then Some (option_map (fun '(p, l) => (p, map byteOf l)) s)
      else None
  | _ => None
  end.

(** The type assertion [v.(string)]. *)
Definition assertString (v : any) : option string :=
  match v with
  | VString ty s => if gotype_eqb ty tstring then Some s else None
  | _ => None
  end.

(** ** The comparator, [isEqual] *)

Definition isEqual `{Host} (T : gotype) (got want : any) : outcome bool :=
  if isNil got && isNil want then Return true
  else
    match equaler T got with
    | Some equalable => Return (equalable got want)
    | None =>
        match assertBytes got with
        | Some aBytes =>
            match assertBytes want with
            | Some bBytes => Return (bytes.Equal aBytes bBytes)
            | None => Panic (InterfaceConversion (TypeOf want) tbytes)
            end
        | None => Return (DeepEqual got want)
        end
    end.

(** ** The message formatter, [formatMsg] *)

Definition formatMsg `{Host} (msgAndArgs : list any) : string :=
  let b := "" in
  match msgAndArgs with
  | [] => b
  | [m] =>
      let b := b ++ " " in
      match assertString m with
      | Some s => b ++ s
      | None => b ++ fmt_Sprint [m]
      end
  | m :: rest =>
      let b := b ++ " " in
      match assertString m with
      | Some s => b ++ fmt_Sprintf s rest
      | None => b ++ fmt_Sprint msgAndArgs
      end
  end.

(** ** The reporting handle and the calls made on it

    The package never looks inside the handle: all it does is call it.  A
    run of an assertion is therefore described by the calls it makes, in
    order, and by how it ends.  The handle decides two things itself:
    whether it has the optional [Helper] method, and whether its fatal
    reports come back to the caller (a mock) or end the goroutine (as
    [testing.T] does). *)

Record TestingT : Type := {
  implementsHelper : bool;
  fatalReturns : bool
}.

Inductive event : Type :=
| CallHelper
| CallError (args : list any)
| CallErrorf (format : string) (args : list any)
| CallFatal (args : list any)
| CallFatalf (format : string) (args : list any).

(** One of the four reporting operations, as opposed to the [Helper] mark. *)
Definition isReport (e : event) : bool :=
  match e with CallHelper => false | _ => true end.

Definition isFatal (e : event) : bool :=
  match e with CallFatal _ | CallFatalf _ _ => true | _ => false end.

Definition Test (A : Type) : Type := list event -> list event * outcome A.

Definition ret {A} (a : A) : Test A := fun log => (log, Return a).

Definition bind {A B} (m : Test A) (k : A -> Test B) : Test B :=
  fun log =>
    match m log with
    | (log', Return a) => k a log'
    | (log', Panic f) => (log', Panic f)
    | (log', Goexit) => (log', Goexit)
    end.

Definition lift {A} (o : outcome A) : Test A := fun log => (log, o).

Notation "x <- m ;; k" := (bind m (fun x => k))
  (at level 61, m at next level, right associativity).
Notation "m ;; k" := (bind m (fun _ => k))
  (at level 61, right associativity).

Definition call (e : event) : Test unit := fun log => ((log ++ [e])%list, Return tt).

Definition Helper (t : TestingT) : Test unit :=
  if implementsHelper t then call CallHelper else ret tt.

Definition Errorf (t : TestingT) (format : string) (args : list any)
  : Test unit := call (CallErrorf format args).

Definition Fatalf (t : TestingT) (format : string) (args : list any)
  : Test unit :=
  call (CallFatalf format args) ;;
  if fatalReturns t then ret tt else lift Goexit.

(** A run from the empty log. *)
Definition run {A} (m : Test A) : list event * outcome A := m [].

Definition str (s : string) : any := VString tstring s.

(** ** The public assertion functions *)

Section Assertions.
Context `{Host}.

Definition Equal (t : TestingT) (T : gotype) (got want : any)
      (msgAndArgs : list any) : Test unit :=
    Helper t ;;
    eq <- lift (isEqual T got want) ;;
    if negb eq then
      Errorf t "got: %#v; want: %#v;%s" [got; want; str (formatMsg msgAndArgs)]
    else ret tt.

Definition NotEqual (t : TestingT) (T : gotype) (got want : any)
      (msgAndArgs : list any) : Test unit :=
    Helper t ;;
    eq <- lift (isEqual T got want) ;;
    if eq then
      Errorf t "got: %#v; expected values to be different;%s"
        [got; str (formatMsg msgAndArgs)]
    else ret tt.

Definition Nil (t : TestingT) (got : any) (msgAndArgs : list any)
    : Test unit :=
    Helper t ;;
    if negb (isNil got) then
      Errorf t "got: %#v; want: <nil>;%s" [got; str (formatMsg msgAndArgs)]
    else ret tt.

Definition NotNil (t : TestingT) (got : any) (msgAndArgs : list any)
    : Test unit :=
    Helper t ;;
    if isNil got then
      Errorf t "got: <nil>; expected non-nil;%s" [str (formatMsg msgAndArgs)]
    else ret tt.

Definition terror : gotype := TInterface "error".

  (** The method set of an [error]'s dynamic value. *)
Definition errorMethod (v : any) : option (value -> string) :=
    match TypeOf v with
    | Some dyn => if hasMethods dyn then method_Error dyn else None
    | None => None
    end.

  (** [got.Error()] on an interface value of type [error]: a nil interface
      has no method to call.  A value that is no [error] cannot be passed
      for [got]; the model faults where the conversion would. *)
Definition callError (got : any) : outcome string :=
    match got with
    | VNil => Panic NilDereference
    | _ =>
        match errorMethod got with
        | Some method => Return (method got)
        | None => Panic (InterfaceConversion (TypeOf got) terror)
        end
    end.

  (** [got != nil] on an interface value. *)
Definition notNil (v : any) : bool :=
    match v with VNil => false | _ => true end.

Definition ErrorIs (t : TestingT) (got want : any) (msgAndArgs : list any)
    : Test unit :=
    Helper t ;;
    match want with
    | VNil =>
        if notNil got then
          Errorf t "unexpected error: %s;%s" [got; str (formatMsg msgAndArgs)]
        else ret tt
    | _ =>
    match assertString want with
    | Some w =>
        msg <- lift (callError got) ;;
        if negb (strings.Contains msg w) then
          Errorf t "got: %q; want: %q;%s"
            [got; want; str (formatMsg msgAndArgs)]
        else ret tt
    | None =>
    match errorMethod want, want with
    | Some _, w =>
        if negb (errors_Is got w) then
          if isNil got then
            Errorf t "got: <nil>; want: %T(%v);%s"
              [w; w; str (formatMsg msgAndArgs)]
          else
            Errorf t "got: %T(%v); want: %T(%v);%s"
              [got; got; w; w; str (formatMsg msgAndArgs)]
        else ret tt
    | None, VType w =>
        let target := reflect_New w in
        found <- lift (errors_As got target) ;;
        if negb found then
          Errorf t "got: %T; want: %v;%s"
            [got; VType w; str (formatMsg msgAndArgs)]
        else ret tt
    | None, _ =>
        Fatalf t "unsupported want type: %T" [want]
    end end end.

Definition ErrorAs (t : TestingT) (got target : any)
      (msgAndArgs : list any) : Test unit :=
    Helper t ;;
    if negb (notNil got) then
      Errorf t "got: nil; want assignable to: %T;%s"
        [target; str (formatMsg msgAndArgs)]
    else
      found <- lift (errors_As got target) ;;
      if negb found then
        Errorf t "got: %v#; want assignable to: %T(%#v);%s"
          [got; target; str (formatMsg msgAndArgs)]
      else ret tt.

Definition MatchesRegexp (t : TestingT) (got pattern : string)
      (msgAndArgs : list any) : Test unit :=
    Helper t ;;
    let (matched, err) := regexp_MatchString pattern got in
    match err with
    | Some errMsg =>
        Fatalf t "unable to parse regexp pattern %s: %s"
          [str pattern; str errMsg]
    | None =>
        if negb matched then
          Errorf t "got: %q; want to match %q;%s"
            [str got; str pattern; str (formatMsg msgAndArgs)]
        else ret tt
    end.

End Assertions.

(** ** A host for the examples

    The types of the package's own test file ([intType], [noisy],
    [errType]) and the errors of [errors.New] and [fmt.Errorf("%w")], with
    [errors.Is] and [errors.As] walking the [Unwrap] chain of the latter.
    Formatting knows the verbs [%s], [%v] and [%d] on strings, integers and
    booleans; patterns are literal, and an opening bracket without its
    closing one is the parse error. *)

Module Sample.

Definition tint : gotype := TBasic reflect.Int.
Definition tfloat64 : gotype := TBasic reflect.Float64.
Definition intType : gotype := TNamed "assert.intType" reflect.Struct.
Definition noisy : gotype := TNamed "assert.noisy" reflect.Struct.
Definition errType : gotype := TNamed "assert.errType" reflect.String.
Definition errorString : gotype :=
    TPointer (TNamed "errors.errorString" reflect.Struct).
Definition wrapError : gotype :=
    TPointer (TNamed "fmt.wrapError" reflect.Struct).

Definition int (n : Z) : any := VInt tint n.

  (** [noisy{val, noise}]. *)
Definition newNoisy (val : Z) (noise : float) : any :=
    VStruct noisy [int val; VFloat tfloat64 noise].

  (** [func (n noisy) Equal(other noisy) bool { return n.val == other.val }] *)
Definition noisy_Equal (n other : value) : bool :=
    match n, other with
    | VStruct _ (VInt _ a :: _), VStruct _ (VInt _ b :: _) => Z.eqb a b
    | _, _ => false
    end.

  (** [errors.New(text)], allocated at [p]. *)
Definition errors_New (p : addr) (text : string) : any :=
    VPointer errorString
      (Some (p, VStruct (TNamed "errors.errorString" reflect.Struct)
                  [str text])).

  (** [fmt.Errorf(prefix + ": %w", err)], allocated at [p]. *)
Definition wrap (p : addr) (msg : string) (err : any) : any :=
    VPointer wrapError
      (Some (p, VStruct (TNamed "fmt.wrapError" reflect.Struct)
                  [str msg; err])).

Definition Error_method (dyn : gotype) : option (value -> string) :=
    if gotype_eqb dyn errType then
      Some (fun e => match e with VString _ s => s | _ => "" end)
    else if gotype_eqb dyn errorString || gotype_eqb dyn wrapError then
      Some (fun e =>
              match e with
              | VPointer _ (Some (_, VStruct _ (VString _ s :: _))) => s
              | _ => ""
              end)
    else None.

  (** [errors.Is]: equal to the target, or wrapping something that is. *)
Fixpoint isChain (err target : value) {struct err} : bool :=
    go_eq err target ||
    match err with
    | VPointer ty (Some (_, VStruct _ [_; inner])) =>
        gotype_eqb ty wrapError && notNil inner && isChain inner target
    | _ => false
    end.

Definition Is (err target : any) : bool :=
    if negb (notNil err) || negb (notNil target) then go_eq err target
    else isChain err target.

  (** [errors.As]'s walk: some link has the type the target points to. *)
Fixpoint asChain (err : value) (targetType : gotype) {struct err} : bool :=
    sameType (TypeOf err) (Some targetType) ||
    match err with
    | VPointer ty (Some (_, VStruct _ [_; inner])) =>
        gotype_eqb ty wrapError && notNil inner && asChain inner targetType
    | _ => false
    end.

Definition As (err target : any) : outcome bool :=
    if negb (notNil err) then Return false
    else
      match target with
      | VPointer (TPointer targetType) (Some _) =>
          match targetType, Error_method targetType with
          | TInterface _, _ | _, Some _ => Return (asChain err targetType)
          | _, None => Panic InvalidTarget
          end
      | _ => Panic InvalidTarget
      end.

  (** The zero value of a type, as far as its kind tells. *)
Definition zero (ty : gotype) : any :=
    match kind_of_type ty with
    | reflect.Bool => VBool ty false
    | reflect.String => VString ty ""
    | reflect.Float32 | reflect.Float64 => VFloat ty PrimFloat.zero
    | reflect.Chan => VChan ty None
    | reflect.Func => VFunc ty None
    | reflect.Map => VMap ty None
    | reflect.Pointer => VPointer ty None
    | reflect.Slice => VSlice ty None
    | reflect.Array => VArray ty []
    | reflect.Struct => VStruct ty []
    | reflect.Interface | reflect.Invalid => VNil
    | _ => VInt ty 0
    end.

Definition New (ty : gotype) : any :=
    VPointer (TPointer ty) (Some (49152%N, zero ty)).

Definition digit (n : nat) : string :=
    String (ascii_of_nat (48 + n)) "".

Fixpoint decimal (fuel : nat) (n : nat) : string :=
    match fuel with
    | O => ""
    | S fuel' =>
        if Nat.ltb n 10 then digit n
        else decimal fuel' (n / 10) ++ digit (n mod 10)
    end.

Definition itoa (n : Z) : string :=
    let m := Z.to_nat (Z.abs n) in
    (if Z.ltb n 0 then "-" else "") ++ decimal (S m) m.

Definition display (v : any) : string :=
    match v with
    | VNil => "<nil>"
    | VBool _ b => if b then "true" else "false"
    | VInt _ n => itoa n
    | VString _ s => s
    | _ => "?"
    end.

Fixpoint Sprintf (format : string) (args : list any) : string :=
    match format with
    | String "%" (String c rest) =>
        if Ascii.eqb c "%" then String "%" (Sprintf rest args)
        else
          match args with
          | a :: args' => display a ++ Sprintf rest args'
          | [] => "%!" ++ String c "(MISSING)" ++ Sprintf rest []
          end
    | String c rest => String c (Sprintf rest args)
    | EmptyString => ""
    end.

Definition isString (v : any) : bool :=
    match v with VString _ _ => true | _ => false end.

  (** [fmt.Sprint]: a space goes between operands when neither is a
      string. *)
Fixpoint Sprint (args : list any) : string :=
    match args with
    | [] => ""
    | a :: rest =>
        display a ++
        match rest with
        | [] => ""
        | b :: _ =>
            (if isString a || isString b then "" else " ") ++ Sprint rest
        end
    end.

Definition hasByte (c : ascii) (s : string) : bool :=
    strings.Contains s (String c "").

Definition literal (pattern : string) : bool :=
    negb (existsb (fun c => hasByte c pattern)
            (list_ascii_of_string "\.+*?()|[]{}^$")).

Definition MatchString (pattern s : string) : bool * option string :=
    if literal pattern then (strings.Contains s pattern, None)
    else if hasByte "[" pattern && negb (hasByte "]" pattern) then
      (false, Some ("error parsing regexp: missing closing ]: `"
                      ++ pattern ++ "`"))
    else (false, Some "pattern outside the literal fragment").

#[export] Instance host : Host := {
    method_Equal dyn T :=
      if gotype_eqb dyn noisy && gotype_eqb T noisy
      then Some noisy_Equal else None;
    method_Error := Error_method;
    fmt_Sprint := Sprint;
    fmt_Sprintf := Sprintf;
    errors_Is := Is;
    errors_As := As;
    reflect_New := New;
    regexp_MatchString := MatchString
  }.

  (** The mock handle of the test file, and [*testing.T]. *)
Definition mockTB : TestingT :=
    {| implementsHelper := true; fatalReturns := true |}.
Definition testingT : TestingT :=
    {| implementsHelper := true; fatalReturns := false |}.

End Sample.

(** ** Notions used by the statements *)

(** The byte slice with the given backing array and elements, as a value. *)
Definition byteSlice (s : bytes.t) : any :=
  VSlice tbytes
    (option_map (fun '(p, l) => (p, map (VInt (TBasic reflect.Uint8)) l)) s).

(** Same length and the same element at every index. *)
Definition sameBytes (a b : list Z) : Prop :=
  List.length a = List.length b /\
  forall i : nat, nth_error a i = nth_error b i.

(** No floating-point NaN and no non-nil function among the parts that
    [reflect.DeepEqual] compares by content when a value meets itself:
    behind a pointer, a map or a slice it stops at the identity of the
    reference, so only arrays and structs are searched. *)
Fixpoint noNaNnoFunc (v : value) : bool :=
  match v with
  | VFloat _ f => PrimFloat.eqb f f
  | VFunc _ (Some _) => false
  | VArray _ xs | VStruct _ xs =>
      (fix all (l : list value) : bool :=
         match l with
         | [] => true
         | x :: l' => noNaNnoFunc x && all l'
         end) xs
  | _ => true
  end.

(** The values at which the comparator is reflexive: nil ones, those whose
    own [Equal] accepts them, and, without such a method, those free of NaN
    and of non-nil functions. *)
Definition reflexiveAt `{Host} (T : gotype) (v : any) : bool :=
  isNil v ||
  match equaler T v with
  | Some equalable => equalable v v
  | None => noNaNnoFunc v
  end.

(** The log of a call that reports nothing: the [Helper] mark, if the
    handle has one. *)
Definition helperLog (t : TestingT) : list event :=
  if implementsHelper t then [CallHelper] else [].

(** A run that passes: it returns, the log holds the [Helper] mark at most,
    and so none of the four reporting operations was called. *)
Definition passes (t : TestingT) (r : list event * outcome unit) : Prop :=
  r = (helperLog t, Return tt) /\ existsb isReport (fst r) = false.

(** A run that reports once, nonfatally, through [Errorf], and returns. *)
Definition reportsErrorf (t : TestingT) (format : string) (args : list any)
    (r : list event * outcome unit) : Prop :=
  r = ((helperLog t ++ [CallErrorf format args])%list, Return tt).

(** A run that reports once through [Fatalf]; whether it returns is the
    handle's business. *)
Definition reportsFatalf (t : TestingT) (format : string) (args : list any)
    (r : list event * outcome unit) : Prop :=
  r = ((helperLog t ++ [CallFatalf format args])%list,
       if fatalReturns t then Return tt else Goexit).

(** When [ErrorIs] is meant to pass, by the shape of [want]: no error
    wanted and none got; a substring of the rendered message; a link of the
    chain by [errors.Is]; a link of the described type by [errors.As]. *)
Definition ErrorIs_succeeds `{Host} (got want : any) : Prop :=
  match want with
  | VNil => got = VNil
  | _ =>
      match assertString want with
      | Some w =>
          exists msg, callError got = Return msg /\
                      strings.Contains msg w = true
      | None =>
          match errorMethod want, want with
          | Some _, _ => errors_Is got want = true
          | None, VType w => errors_As got (reflect_New w) = Return true
          | None, _ => False
          end
      end
  end.

(** Number of operands a format asks for: its verbs, [%%] apart. *)
Fixpoint verbs (format : string) : nat :=
  match format with
  | String "%" (String c rest) =>
      if Ascii.eqb c "%" then verbs rest else S (verbs rest)
  | String _ rest => verbs rest
  | EmptyString => 0
  end.

(** The report of a mismatch in [ErrorAs] as the specification words it:
    "got: {got}; want assignable to: {targetType}({target!r});" and the
    suffix. *)
Definition ErrorAs_mismatch_spec `{Host} (got target : any)
    (msgAndArgs : list any) : event :=
  CallErrorf "got: %v; want assignable to: %T(%#v);%s"
    [got; target; target; str (formatMsg msgAndArgs)].

(** ** The first version of the package

    The first half of [assert.go]: [True] and [False], a trailing list of
    plain strings for the message, and a [formatMsg] that joins them.  The
    comparator and the nilness check are the same in both versions. *)

Module V1.

Definition formatMsg (msg : list string) : string :=
  match msg with
  | [] => ""
  | m :: _ =>
      if Nat.eqb (String.length m) 0 then ""
      else " " ++ strings.Join msg "; "
  end.

Section Assertions.
Context `{Host}.

Definition True (t : TestingT) (got : bool) (msg : list string) : Test unit :=
  Helper t ;;
  if negb got then
    Errorf t "got: false; want: true;%s" [str (formatMsg msg)]
  else ret tt.

Definition False (t : TestingT) (got : bool) (msg : list string)
  : Test unit :=
  Helper t ;;
  if got then
    Errorf t "got: true; want: false;%s" [str (formatMsg msg)]
  else ret tt.

Definition Equal (t : TestingT) (T : gotype) (got want : any)
    (msg : list string) : Test unit :=
  Helper t ;;
  eq <- lift (isEqual T got want) ;;
  if negb eq then
    Errorf t "got: %#v; want: %#v;%s" [got; want; str (formatMsg msg)]
  else ret tt.

Definition NotEqual (t : TestingT) (T : gotype) (got want : any)
    (msg : list string) : Test unit :=
  Helper t ;;
  eq <- lift (isEqual T got want) ;;
  if eq then
    Errorf t "got: %#v; expected values to be different;%s"
      [got; str (formatMsg msg)]
  else ret tt.

Definition Nil (t : TestingT) (got : any) (msg : list string) : Test unit :=
  Helper t ;;
  if negb (isNil got) then
    Errorf t "got: %#v; want: <nil>;%s" [got; str (formatMsg msg)]
  else ret tt.

Definition NotNil (t : TestingT) (got : any) (msg : list string)
  : Test unit :=
  Helper t ;;
  if isNil got then
    Errorf t "got: <nil>; expected non-nil;%s" [str (formatMsg msg)]
  else ret tt.

Definition ErrorIs (t : TestingT) (got want : any) (msg : list string)
  : Test unit :=
  Helper t ;;
  match want with
  | VNil =>
      if notNil got then
        Errorf t "unexpected error: %s;%s" [got; str (formatMsg msg)]
      else ret tt
  | _ =>
  match assertString want with
  | Some w =>
      text <- lift (callError got) ;;
      if negb (strings.Contains text w) then
        Errorf t "got: %q; want: %q;%s" [got; want; str (formatMsg msg)]
      else ret tt
  | None =>
  match errorMethod want, want with
  | Some _, w =>
      if negb (errors_Is got w) then
        if isNil got then
          Errorf t "got: <nil>; want: %T(%v);%s" [w; w; str (formatMsg msg)]
        else
          Errorf t "got: %T(%v); want: %T(%v);%s"
            [got; got; w; w; str (formatMsg msg)]
      else ret tt
  | None, VType w =>
      let target := reflect_New w in
      found <- lift (errors_As got target) ;;
      if negb found then
        Errorf t "got: %T; want: %v;%s" [got; VType w; str (formatMsg msg)]
      else ret tt
  | None, _ =>
      Fatalf t "unsupported want type: %T" [want]
  end end end.

Definition MatchesRegexp (t : TestingT) (got pattern : string)
    (msg : list string) : Test unit :=
  Helper t ;;
  let (matched, err) := regexp_MatchString pattern got in
  match err with
  | Some errMsg =>
      Fatalf t "unable to parse regexp pattern %s: %s"
        [str pattern; str errMsg]
  | None =>
      if negb matched then
        Errorf t "got: %q; want to match %q;%s"
          [str got; str pattern; str (formatMsg msg)]
      else ret tt
  end.

End Assertions.
End V1.

(** ** The mock handle of the test file

    [mockTB] records whether a report was made, whether it was fatal, and
    the text of the last one.  Its fatal reports return to the caller, and
    [Helper] does nothing. *)

Module Mock.

Record mockTB : Type := {
  failed : bool;
  fatal : bool;
  msg : string
}.

(** [&mockTB{}]. *)
Definition fresh : mockTB := {| failed := false; fatal := false; msg := "" |}.

Section Methods.
Context `{Host}.

Definition Error (m : mockTB) (args : list any) : mockTB :=
  {| failed := true; fatal := fatal m; msg := fmt_Sprint args |}.

Definition Errorf (m : mockTB) (format : string) (args : list any) : mockTB :=
  {| failed := true; fatal := fatal m; msg := fmt_Sprintf format args |}.

Definition Fatal (m : mockTB) (args : list any) : mockTB :=
  Error {| failed := failed m; fatal := true; msg := msg m |} args.

Definition Fatalf (m : mockTB) (format : string) (args : list any) : mockTB :=
  Errorf {| failed := failed m; fatal := true; msg := msg m |} format args.

(** The effect of one call on the mock. *)
Definition step (m : mockTB) (e : event) : mockTB :=
  match e with
  | CallHelper => m
  | CallError args => Error m args
  | CallErrorf format args => Errorf m format args
  | CallFatal args => Fatal m args
  | CallFatalf format args => Fatalf m format args
  end.

(** The mock after the calls of a log, in order. *)
Definition replay (log : list event) (m : mockTB) : mockTB :=
  fold_left step log m.

(** The mock after a run of an assertion on a fresh one. *)
Definition after (r : list event * outcome unit) : mockTB :=
  replay (fst r) fresh.

End Methods.
End Mock.

(** ** More notions used by the statements *)

(** A log with the [Helper] mark first, if the handle has one, and then at
    most one report, made through [Errorf] or [Fatalf]. *)
Definition atMostOneReport (t : TestingT) (log : list event) : Prop :=
  log = helperLog t \/
  exists format args,
    log = (helperLog t ++ [CallErrorf format args])%list \/
    log = (helperLog t ++ [CallFatalf format args])%list.

(** The shapes of [want] that [ErrorIs] knows: nil, a plain string, an
    error, a type descriptor. *)
Definition supportedWant `{Host} (want : any) : bool :=
  match want with
  | VNil | VType _ => true
  | _ =>
      match assertString want, errorMethod want with
      | None, None => false
      | _, _ => true
      end
  end.

(** No message, or a single one that is not empty. *)
Definition plainMessage (msg : list string) : bool :=
  match msg with
  | [] => true
  | [m] => negb (String.eqb m "")
  | _ => false
  end.

(** ** Induction on values *)

Section value_nested_ind.
Variable P : value -> Prop.
Hypothesis HNil : P VNil.
Hypothesis HBool : forall ty b, P (VBool ty b).
Hypothesis HInt : forall ty n, P (VInt ty n).
Hypothesis HFloat : forall ty f, P (VFloat ty f).
Hypothesis HString : forall ty s, P (VString ty s).
Hypothesis HChan : forall ty c, P (VChan ty c).
Hypothesis HFunc : forall ty f, P (VFunc ty f).
Hypothesis HMap : forall ty m, P (VMap ty m).
Hypothesis HPointer : forall ty p, P (VPointer ty p).
Hypothesis HSlice : forall ty s, P (VSlice ty s).
Hypothesis HArray : forall ty xs, Forall P xs -> P (VArray ty xs).
Hypothesis HStruct : forall ty xs, Forall P xs -> P (VStruct ty xs).
Hypothesis HType : forall ty, P (VType ty).

(** Induction on a value with the fields of arrays and structs as
    premises. *)
Fixpoint value_nested_ind (v : value) : P v :=
  let fields :=
    fix fields (l : list value) : Forall P l :=
      match l with
      | [] => Forall_nil P
      | x :: l' => Forall_cons x (value_nested_ind x) (fields l')
      end in
  match v with
  | VNil => HNil
  | VBool ty b => HBool ty b
  | VInt ty n => HInt ty n
  | VFloat ty f => HFloat ty f
  | VString ty s => HString ty s
  | VChan ty c => HChan ty c
  | VFunc ty f => HFunc ty f
  | VMap ty m => HMap ty m
  | VPointer ty p => HPointer ty p
  | VSlice ty s => HSlice ty s
  | VArray ty xs => HArray ty (fields xs)
  | VStruct ty xs => HStruct ty (fields xs)
  | VType ty => HType ty
  end.
End value_nested_ind.

(** ** Basic facts *)

Lemma gotype_eqb_refl (ty : gotype) : gotype_eqb ty ty = true.
Proof. unfold gotype_eqb. destruct (gotype_eq_dec ty ty); congruence. Qed.

Lemma gotype_eqb_eq (a b : gotype) : gotype_eqb a b = true <-> a = b.
Proof.
  unfold gotype_eqb. destruct (gotype_eq_dec a b); split; congruence.
Qed.

Lemma sameType_refl (o : option gotype) : sameType o o = true.
Proof. destruct o; simpl; auto using gotype_eqb_refl. Qed.

Lemma eq_elems_eq (a b : list Z) : bytes.eq_elems a b = true <-> a = b.
Proof.
  revert b. induction a as [|x a IH]; intros [|y b]; simpl;
    try (split; congruence).
  rewrite andb_true_iff, Z.eqb_eq, IH. split.
  - intros [-> ->]. reflexivity.
  - intros E. injection E as -> ->. auto.
Qed.

Lemma sameBytes_eq (a b : list Z) : sameBytes a b <-> a = b.
Proof.
  split.
  - intros [_ E]. revert b E. induction a as [|x a IH]; intros [|y b] E.
    + reflexivity.
    + specialize (E 0%nat). discriminate.
    + specialize (E 0%nat). discriminate.
    + pose proof (E 0%nat) as E0. simpl in E0. injection E0 as ->.
      f_equal. apply IH. intro i. exact (E (S i)).
  - intros ->. split; reflexivity.
Qed.

Lemma byteOf_VInt (l : list Z) :
  map byteOf (map (VInt (TBasic reflect.Uint8)) l) = l.
Proof. induction l; simpl; congruence. Qed.

Lemma assertBytes_byteSlice (s : bytes.t) : assertBytes (byteSlice s) = Some s.
Proof.
  destruct s as [[p l]|]; simpl; [|reflexivity].
  rewrite byteOf_VInt. reflexivity.
Qed.

Lemma equaler_byteSlice `{Host} (T : gotype) (s : bytes.t) :
  equaler T (byteSlice s) = None.
Proof. reflexivity. Qed.

Lemma isNil_byteSlice (s : bytes.t) :
  isNil (byteSlice s) = match s with None => true | Some _ => false end.
Proof. destruct s as [[p l]|]; reflexivity. Qed.

(** ** The comparator *)

(** C1. Two values that both pass the nilness check are equal for the
    comparator, whatever the type parameter and whatever their dynamic
    types: the first rule of [isEqual] answers before any type is looked
    at. *)
Theorem isEqual_both_nil `{Host} (T : gotype) (got want : any) :
  isNil got = true -> isNil want = true ->
  isEqual T got want = Return true.
Proof.
  intros Hg Hw. unfold isEqual. rewrite Hg, Hw. reflexivity.
Qed.

(** A nil [*A] and a nil [*B], compared at [any]. *)
Lemma isEqual_both_nil_witness :
  isEqual (H := Sample.host) tany
    (VPointer (TPointer (TNamed "main.A" reflect.Struct)) None)
    (VPointer (TPointer (TNamed "main.B" reflect.Struct)) None)
  = Return true.
Proof.
  apply (isEqual_both_nil (H := Sample.host)); reflexivity.
Defined.

(** C2, as the code has it. On byte slices the comparator returns, and it
    answers true exactly when the two have the same length and the same
    byte at every index; [bytes.Equal] does not tell a nil slice from an
    empty one, so these two are equal as well. *)
Theorem isEqual_bytes `{Host} (T : gotype) :
  (forall a b : bytes.t,
      exists r, isEqual T (byteSlice a) (byteSlice b) = Return r /\
                (r = true <-> sameBytes (bytes.elems a) (bytes.elems b)))
  /\
  (forall p : addr,
      isEqual T (byteSlice None) (byteSlice (Some (p, []))) = Return true /\
      isEqual T (byteSlice (Some (p, []))) (byteSlice None) = Return true).
Proof.
  split.
  - intros a b. unfold isEqual.
    rewrite !isNil_byteSlice, equaler_byteSlice, !assertBytes_byteSlice.
    destruct a as [[p l]|], b as [[q m]|]; simpl;
      eexists; (split; [reflexivity|]);
      rewrite sameBytes_eq; try apply eq_elems_eq;
      split; reflexivity.
  - intros p. split; reflexivity.
Qed.

(** C2 as it was stated fails: the nil byte slice and the empty one are
    equal for the comparator. *)
Lemma isEqual_bytes_nil_vs_empty :
  isEqual (H := Sample.host) tbytes
    (byteSlice None) (byteSlice (Some (49152%N, []))) = Return true
  /\ isNil (byteSlice None) = true
  /\ isNil (byteSlice (Some (49152%N, []))) = false.
Proof. repeat split. Qed.

(** C4. Past the double-nil rule, when the dynamic type of [got] has the
    method [Equal(T) bool], the comparator returns what that method says of
    [got] and [want]: the answer is read off [got]'s method alone, with no
    look at [want]'s type, at the byte-slice rule or at
    [reflect.DeepEqual]. *)
Theorem isEqual_defers_to_Equal `{Host} (T : gotype) (got want : any)
    (equalable : value -> value -> bool) :
  isNil got && isNil want = false ->
  equaler T got = Some equalable ->
  isEqual T got want = Return (equalable got want).
Proof.
  intros Hnil Heq. unfold isEqual. rewrite Hnil, Heq. reflexivity.
Qed.

(** Two [noisy] values that differ in the field their [Equal] ignores. *)
Lemma isEqual_defers_to_Equal_witness :
  isEqual (H := Sample.host) Sample.noisy
    (Sample.newNoisy 42 PrimFloat.one) (Sample.newNoisy 42 PrimFloat.zero)
  = Return true
  /\ DeepEqual
       (Sample.newNoisy 42 PrimFloat.one) (Sample.newNoisy 42 PrimFloat.zero)
     = false.
Proof.
  split.
  - exact (isEqual_defers_to_Equal (H := Sample.host) Sample.noisy
             (Sample.newNoisy 42 PrimFloat.one)
             (Sample.newNoisy 42 PrimFloat.zero)
             (equalable := Sample.noisy_Equal) eq_refl eq_refl).
  - reflexivity.
Defined.

(** ** The message formatter *)

(** C9. Without arguments the suffix is empty; one plain string gives a
    space and that string, untouched; a plain string followed by more
    arguments gives a space and the string used as the template of the
    remaining arguments; and a suffix that is not empty begins with a
    space. *)
Theorem formatMsg_cases `{Host} :
  formatMsg [] = ""
  /\ (forall s : string, formatMsg [str s] = " " ++ s)
  /\ (forall (s : string) (a : any) (rest : list any),
        formatMsg (str s :: a :: rest) = " " ++ fmt_Sprintf s (a :: rest))
  /\ (forall msgAndArgs : list any,
        match formatMsg msgAndArgs with
        | EmptyString => msgAndArgs = []
        | String c _ => c = " "%char /\ c <> ";"%char
        end).
Proof.
  repeat split.
  intros [|m [|a rest]]; simpl; [reflexivity| |];
    destruct (assertString m); simpl; split; congruence.
Qed.

(** ** Reflexivity of the structural comparison *)

Lemma option_eqb_N_refl (o : option addr) : option_eqb N.eqb o o = true.
Proof. destruct o; simpl; auto using N.eqb_refl. Qed.

(** The unfolded field loops of [noNaNnoFunc] and [deepValueEqual]. *)
Lemma fields_refl (xs : list value) :
  Forall (fun v => noNaNnoFunc v = true -> deepValueEqual v v = true) xs ->
  (fix all (l : list value) : bool :=
     match l with
     | [] => true
     | x :: l' => noNaNnoFunc x && all l'
     end) xs = true ->
  (fix all2 (l1 l2 : list value) {struct l1} : bool :=
     match l1, l2 with
     | [], [] => true
     | a :: l1', b :: l2' => deepValueEqual a b && all2 l1' l2'
     | _, _ => false
     end) xs xs = true.
Proof.
  induction 1 as [|x xs Hx _ IH]; intros Hall.
  - reflexivity.
  - apply andb_true_iff in Hall as [H1 H2].
    rewrite (Hx H1), (IH H2). reflexivity.
Qed.

Lemma deepValueEqual_refl (v : value) :
  noNaNnoFunc v = true -> deepValueEqual v v = true.
Proof.
  induction v using value_nested_ind; intros Hv; simpl in Hv |- *;
    rewrite ?gotype_eqb_refl; simpl;
    try reflexivity.
  - rewrite Bool.eqb_reflx. reflexivity.
  - rewrite Z.eqb_refl. reflexivity.
  - exact Hv.
  - rewrite String.eqb_refl. reflexivity.
  - apply option_eqb_N_refl.
  - destruct f; [discriminate | reflexivity].
  - destruct m as [[p m]|]; [|reflexivity].
    rewrite Nat.eqb_refl, N.eqb_refl. reflexivity.
  - destruct p as [[p x]|]; [|reflexivity].
    rewrite N.eqb_refl. reflexivity.
  - destruct s as [[p xs]|]; [|reflexivity].
    rewrite Nat.eqb_refl, N.eqb_refl. reflexivity.
  - apply fields_refl; assumption.
  - apply fields_refl; assumption.
Qed.

Lemma DeepEqual_refl (v : value) :
  noNaNnoFunc v = true -> DeepEqual v v = true.
Proof.
  intros Hv. unfold DeepEqual. destruct v; try reflexivity;
    rewrite sameType_refl; simpl negb; cbv iota;
    apply deepValueEqual_refl; exact Hv.
Qed.

Lemma bytes_Equal_refl (b : bytes.t) : bytes.Equal b b = true.
Proof. unfold bytes.Equal. apply eq_elems_eq. reflexivity. Qed.

(** The comparator is reflexive at the values of [reflexiveAt]. *)
Lemma isEqual_refl `{Host} (T : gotype) (v : any) :
  reflexiveAt T v = true -> isEqual T v v = Return true.
Proof.
  unfold reflexiveAt, isEqual. intros Hr.
  destruct (isNil v); [reflexivity|]. simpl in Hr |- *.
  destruct (equaler T v) as [equalable|].
  - rewrite Hr. reflexivity.
  - destruct (assertBytes v) as [b|].
    + rewrite bytes_Equal_refl. reflexivity.
    + rewrite (DeepEqual_refl v Hr). reflexivity.
Qed.

(** ** Running an assertion *)

Lemma run_Helper {A} (t : TestingT) (k : Test A) :
  run (Helper t ;; k) = k (helperLog t).
Proof.
  unfold run, bind, Helper, helperLog, call, ret.
  destruct (implementsHelper t); reflexivity.
Qed.

Lemma bind_lift_Return {A B} (a : A) (k : A -> Test B) (log : list event) :
  (x <- lift (Return a) ;; k x) log = k a log.
Proof. reflexivity. Qed.

Lemma bind_lift_Panic {A B} (f : fault) (k : A -> Test B) (log : list event) :
  (x <- lift (Panic f) ;; k x) log = (log, Panic f).
Proof. reflexivity. Qed.

Lemma Errorf_log (t : TestingT) (format : string) (args : list any)
    (log : list event) :
  Errorf t format args log = ((log ++ [CallErrorf format args])%list, Return tt).
Proof. reflexivity. Qed.

Lemma Fatalf_log (t : TestingT) (format : string) (args : list any)
    (log : list event) :
  Fatalf t format args log =
  ((log ++ [CallFatalf format args])%list,
   if fatalReturns t then Return tt else Goexit).
Proof. unfold Fatalf, bind, call. destruct (fatalReturns t); reflexivity. Qed.

Lemma helperLog_quiet (t : TestingT) : existsb isReport (helperLog t) = false.
Proof. unfold helperLog. destruct (implementsHelper t); reflexivity. Qed.

Lemma helperLog_not_fatal (t : TestingT) (e : event) :
  isFatal e = false -> existsb isFatal (helperLog t ++ [e]) = false.
Proof.
  intros He. unfold helperLog.
  destruct (implementsHelper t); simpl; rewrite He; reflexivity.
Qed.

Lemma passes_helperLog (t : TestingT) : passes t (helperLog t, Return tt).
Proof. split; [reflexivity | apply helperLog_quiet]. Qed.

Create HintDb assert.
#[local] Hint Resolve passes_helperLog : assert.

Ltac run_steps :=
  repeat first
    [ rewrite bind_lift_Return
    | rewrite bind_lift_Panic
    | rewrite Errorf_log
    | rewrite Fatalf_log ];
  cbn [negb].

Ltac run_assertion := rewrite run_Helper; run_steps.

(** ** Equal and NotEqual *)

(** C3, as the code has it. At a value that is nil, or that its own [Equal]
    method accepts, or that has no such method and holds neither a NaN nor
    a non-nil function where the structural comparison looks, comparing the
    value with itself passes [Equal] and fails [NotEqual], which reports
    through [Errorf]. *)
Theorem Equal_NotEqual_same_value `{Host} (t : TestingT) (T : gotype)
    (v : any) (msgAndArgs : list any) :
  reflexiveAt T v = true ->
  passes t (run (Equal t T v v msgAndArgs))
  /\ reportsErrorf t "got: %#v; expected values to be different;%s"
       [v; str (formatMsg msgAndArgs)]
       (run (NotEqual t T v v msgAndArgs)).
Proof.
  intros Hr. apply isEqual_refl in Hr.
  unfold Equal, NotEqual, reportsErrorf.
  split; run_assertion; rewrite Hr; run_steps; auto with assert.
Qed.

(** A struct of the test file compared with itself. *)
Lemma Equal_NotEqual_same_value_witness :
  passes Sample.mockTB
    (run (Equal (H := Sample.host) Sample.mockTB tany
            (VStruct Sample.intType [Sample.int 42])
            (VStruct Sample.intType [Sample.int 42]) []))
  /\ reportsErrorf Sample.mockTB
       "got: %#v; expected values to be different;%s"
       [VStruct Sample.intType [Sample.int 42]; str ""]
       (run (NotEqual (H := Sample.host) Sample.mockTB tany
               (VStruct Sample.intType [Sample.int 42])
               (VStruct Sample.intType [Sample.int 42]) [])).
Proof.
  exact (Equal_NotEqual_same_value (H := Sample.host) Sample.mockTB tany
           (VStruct Sample.intType [Sample.int 42]) [] eq_refl).
Defined.

(** C3 as it was stated fails at a non-nil function and at a NaN: [Equal]
    of the value with itself reports, [NotEqual] does not. *)
Lemma Equal_same_func_or_NaN_reports :
  run (Equal (H := Sample.host) Sample.mockTB tany
         (VFunc (TFunc "func()") (Some 7%N))
         (VFunc (TFunc "func()") (Some 7%N)) [])
  = ([CallHelper;
      CallErrorf "got: %#v; want: %#v;%s"
        [VFunc (TFunc "func()") (Some 7%N);
         VFunc (TFunc "func()") (Some 7%N); str ""]],
     Return tt)
  /\ run (NotEqual (H := Sample.host) Sample.mockTB tany
            (VFunc (TFunc "func()") (Some 7%N))
            (VFunc (TFunc "func()") (Some 7%N)) [])
     = ([CallHelper], Return tt)
  /\ run (Equal (H := Sample.host) Sample.mockTB Sample.tfloat64
            (VFloat Sample.tfloat64 PrimFloat.nan)
            (VFloat Sample.tfloat64 PrimFloat.nan) [])
     = ([CallHelper;
         CallErrorf "got: %#v; want: %#v;%s"
           [VFloat Sample.tfloat64 PrimFloat.nan;
            VFloat Sample.tfloat64 PrimFloat.nan; str ""]],
        Return tt)
  /\ run (NotEqual (H := Sample.host) Sample.mockTB Sample.tfloat64
            (VFloat Sample.tfloat64 PrimFloat.nan)
            (VFloat Sample.tfloat64 PrimFloat.nan) [])
     = ([CallHelper], Return tt).
Proof. repeat split. Qed.

(** C5, as the code has it. When the comparator answers false, [Equal]
    reports once through [Errorf], the nonfatal formatted report, with the
    format "got: %#v; want: %#v;%s" applied to [got], [want] and the
    suffix; no fatal report is made. *)
Theorem Equal_mismatch_reports_Errorf `{Host} (t : TestingT) (T : gotype)
    (got want : any) (msgAndArgs : list any) :
  isEqual T got want = Return false ->
  reportsErrorf t "got: %#v; want: %#v;%s"
    [got; want; str (formatMsg msgAndArgs)]
    (run (Equal t T got want msgAndArgs))
  /\ existsb isFatal (fst (run (Equal t T got want msgAndArgs))) = false.
Proof.
  intros Hne. unfold Equal, reportsErrorf.
  split; run_assertion; rewrite Hne; run_steps.
  - reflexivity.
  - apply helperLog_not_fatal. reflexivity.
Qed.

(** [assert.Equal(t, 1, 2, "%d times around the moon", 3)]. *)
Lemma Equal_mismatch_reports_Errorf_witness :
  reportsErrorf Sample.mockTB "got: %#v; want: %#v;%s"
    [Sample.int 1; Sample.int 2; str " 3 times around the moon"]
    (run (Equal (H := Sample.host) Sample.mockTB tany
            (Sample.int 1) (Sample.int 2)
            [str "%d times around the moon"; Sample.int 3]))
  /\ existsb isFatal
       (fst (run (Equal (H := Sample.host) Sample.mockTB tany
                    (Sample.int 1) (Sample.int 2)
                    [str "%d times around the moon"; Sample.int 3])))
     = false.
Proof.
  exact (Equal_mismatch_reports_Errorf (H := Sample.host) Sample.mockTB tany
           (Sample.int 1) (Sample.int 2)
           [str "%d times around the moon"; Sample.int 3] eq_refl).
Defined.

(** C5 as it was stated fails: the mismatch of 1 and 2 is reported by
    [Errorf] and no fatal report is in the log. *)
Lemma Equal_mismatch_is_not_fatal :
  run (Equal (H := Sample.host) Sample.mockTB tany
         (Sample.int 1) (Sample.int 2) [])
  = ([CallHelper;
      CallErrorf "got: %#v; want: %#v;%s"
        [Sample.int 1; Sample.int 2; str ""]],
     Return tt)
  /\ existsb isFatal
       (fst (run (Equal (H := Sample.host) Sample.mockTB tany
                    (Sample.int 1) (Sample.int 2) [])))
     = false.
Proof. split; reflexivity. Qed.

(** ** Faults *)

(** C6, on the code. [ErrorIs] with a nil [got] and a string [want] calls
    [got.Error()] on the nil interface and panics, and [Equal] at an
    interface type with a byte slice for [got] and an integer for [want]
    panics in the unchecked assertion of [want] to a byte slice; in both
    runs nothing has been reported when the panic leaves the assertion. *)
Theorem ErrorIs_and_Equal_panic `{Host} (t : TestingT)
    (msgAndArgs : list any) :
  (forall w : string,
      run (ErrorIs t VNil (str w) msgAndArgs)
      = (helperLog t, Panic NilDereference))
  /\ (forall (p : addr) (l : list Z) (n : Z),
        run (Equal t tany (byteSlice (Some (p, l)))
               (VInt (TBasic reflect.Int) n) msgAndArgs)
        = (helperLog t,
           Panic (InterfaceConversion (Some (TBasic reflect.Int)) tbytes))).
Proof.
  split.
  - intros w. unfold ErrorIs. run_assertion. reflexivity.
  - intros p l n. unfold Equal. run_assertion.
    unfold isEqual.
    rewrite isNil_byteSlice, equaler_byteSlice, assertBytes_byteSlice.
    reflexivity.
Qed.

(** ** MatchesRegexp *)

(** C7. A pattern that does not compile is reported through [Fatalf] with
    the pattern and the message of the compile error, whatever the match
    flag that came with the error; a pattern that compiles and does not
    match is reported through [Errorf] with [got], the pattern and the
    suffix; a pattern that compiles and matches is not reported. *)
Theorem MatchesRegexp_reports `{Host} (t : TestingT) (got pattern : string)
    (msgAndArgs : list any) :
  (forall (matched : bool) (errMsg : string),
      regexp_MatchString pattern got = (matched, Some errMsg) ->
      reportsFatalf t "unable to parse regexp pattern %s: %s"
        [str pattern; str errMsg]
        (run (MatchesRegexp t got pattern msgAndArgs)))
  /\ (regexp_MatchString pattern got = (false, None) ->
      reportsErrorf t "got: %q; want to match %q;%s"
        [str got; str pattern; str (formatMsg msgAndArgs)]
        (run (MatchesRegexp t got pattern msgAndArgs)))
  /\ (regexp_MatchString pattern got = (true, None) ->
      passes t (run (MatchesRegexp t got pattern msgAndArgs))).
Proof.
  unfold MatchesRegexp, reportsFatalf, reportsErrorf.
  split; [intros matched errMsg | split]; intros Hm;
    run_assertion; rewrite Hm; run_steps;
    auto with assert.
Qed.

(** The unbalanced bracket, a literal that is not there, and one that is. *)
Lemma MatchesRegexp_reports_witness :
  reportsFatalf Sample.testingT "unable to parse regexp pattern %s: %s"
    [str "["; str "error parsing regexp: missing closing ]: `[`"]
    (run (MatchesRegexp (H := Sample.host) Sample.testingT "abc" "[" []))
  /\ reportsErrorf Sample.mockTB "got: %q; want to match %q;%s"
       [str "abc123d"; str "abd"; str ""]
       (run (MatchesRegexp (H := Sample.host)
               Sample.mockTB "abc123d" "abd" []))
  /\ passes Sample.mockTB
       (run (MatchesRegexp (H := Sample.host)
               Sample.mockTB "abc123d" "c12" [])).
Proof.
  split; [|split].
  - apply (MatchesRegexp_reports (H := Sample.host)
             Sample.testingT "abc" "[" []) with (matched := false).
    reflexivity.
  - apply (MatchesRegexp_reports (H := Sample.host)
             Sample.mockTB "abc123d" "abd" []).
    reflexivity.
  - apply (MatchesRegexp_reports (H := Sample.host)
             Sample.mockTB "abc123d" "c12" []).
    reflexivity.
Defined.

(** ** ErrorAs *)

(** C8, on the code. When [got] is not nil and [errors.As] finds no link,
    [ErrorAs] calls [Errorf] with a format of four verbs, "%v#", "%T",
    "%#v" and "%s", and three operands, [got], [target] and the suffix:
    the target is missing once, so the suffix lands under "%#v" and "%s"
    has no operand.  That is not the report the specification words. *)
Theorem ErrorAs_mismatch_report `{Host} (t : TestingT) (got target : any)
    (msgAndArgs : list any) :
  notNil got = true ->
  errors_As got target = Return false ->
  reportsErrorf t "got: %v#; want assignable to: %T(%#v);%s"
    [got; target; str (formatMsg msgAndArgs)]
    (run (ErrorAs t got target msgAndArgs))
  /\ verbs "got: %v#; want assignable to: %T(%#v);%s" = 4%nat
  /\ List.length [got; target; str (formatMsg msgAndArgs)] = 3%nat
  /\ CallErrorf "got: %v#; want assignable to: %T(%#v);%s"
       [got; target; str (formatMsg msgAndArgs)]
     <> ErrorAs_mismatch_spec got target msgAndArgs.
Proof.
  intros Hgot Has. unfold ErrorAs, reportsErrorf.
  repeat split.
  - run_assertion. rewrite Hgot. cbn [negb]. rewrite Has. run_steps.
    reflexivity.
  - unfold ErrorAs_mismatch_spec. intros E. discriminate E.
Qed.

(** [errors.New("oops")] against a target of type [**fmt.wrapError]. *)
Lemma ErrorAs_mismatch_report_witness :
  reportsErrorf Sample.mockTB "got: %v#; want assignable to: %T(%#v);%s"
    [Sample.errors_New 1%N "oops"; Sample.New Sample.wrapError; str " ctx"]
    (run (ErrorAs (H := Sample.host) Sample.mockTB
            (Sample.errors_New 1%N "oops") (Sample.New Sample.wrapError)
            [str "ctx"])).
Proof.
  apply (ErrorAs_mismatch_report (H := Sample.host) Sample.mockTB
           (Sample.errors_New 1%N "oops") (Sample.New Sample.wrapError)
           [str "ctx"] eq_refl eq_refl).
Defined.

(** ** Passing assertions *)

(** Closes a case of [ErrorIs] from what its success condition says. *)
Ltac ErrorIs_case Hs :=
  match type of Hs with
  | False => contradiction
  | exists _, _ =>
      let msg := fresh "msg" in
      let Hc := fresh "Hc" in
      let Hw := fresh "Hw" in
      destruct Hs as (msg & Hc & Hw);
      rewrite Hc; run_steps; rewrite Hw; auto with assert
  | _ = VNil => rewrite Hs; auto with assert
  | _ = _ => rewrite Hs; run_steps; auto with assert
  end.

(** C10. Each of the seven assertions, when its success condition holds,
    returns with a log that holds at most the [Helper] mark: none of
    [Error], [Errorf], [Fatal] and [Fatalf] is called. *)
Theorem passing_assertion_reports_nothing `{Host} (t : TestingT)
    (msgAndArgs : list any) :
  (forall (T : gotype) (got want : any),
      isEqual T got want = Return true ->
      passes t (run (Equal t T got want msgAndArgs)))
  /\ (forall (T : gotype) (got want : any),
        isEqual T got want = Return false ->
        passes t (run (NotEqual t T got want msgAndArgs)))
  /\ (forall got : any,
        isNil got = true -> passes t (run (Nil t got msgAndArgs)))
  /\ (forall got : any,
        isNil got = false -> passes t (run (NotNil t got msgAndArgs)))
  /\ (forall got want : any,
        ErrorIs_succeeds got want ->
        passes t (run (ErrorIs t got want msgAndArgs)))
  /\ (forall got target : any,
        notNil got = true -> errors_As got target = Return true ->
        passes t (run (ErrorAs t got target msgAndArgs)))
  /\ (forall got pattern : string,
        regexp_MatchString pattern got = (true, None) ->
        passes t (run (MatchesRegexp t got pattern msgAndArgs))).
Proof.
  repeat apply conj.
  - intros T got want He. unfold Equal. run_assertion. rewrite He.
    run_steps. auto with assert.
  - intros T got want He. unfold NotEqual. run_assertion. rewrite He.
    run_steps. auto with assert.
  - intros got Hn. unfold Nil. run_assertion. rewrite Hn.
    auto with assert.
  - intros got Hn. unfold NotNil. run_assertion. rewrite Hn.
    auto with assert.
  - intros got want Hs. unfold ErrorIs. run_assertion.
    unfold ErrorIs_succeeds in Hs.
    destruct want; cbn [assertString] in Hs |- *;
      try destruct (gotype_eqb ty tstring);
      try destruct (errorMethod _);
      ErrorIs_case Hs.
  - intros got target Hg Ha. unfold ErrorAs. run_assertion.
    rewrite Hg. cbn [negb]. rewrite Ha. run_steps. auto with assert.
  - intros got pattern Hm. unfold MatchesRegexp. run_assertion.
    rewrite Hm. auto with assert.
Qed.

(** One passing call of each assertion on the mock handle. *)
Lemma passing_assertion_reports_nothing_witness :
  passes Sample.mockTB
    (run (Equal (H := Sample.host) Sample.mockTB tany
            (str "hello") (str "hello") []))
  /\ passes Sample.mockTB
       (run (NotEqual (H := Sample.host) Sample.mockTB tany
               (Sample.int 42) (Sample.int 84) []))
  /\ passes Sample.mockTB
       (run (Nil (H := Sample.host) Sample.mockTB
               (VMap (TMap tstring Sample.tint) None) []))
  /\ passes Sample.mockTB
       (run (NotNil (H := Sample.host) Sample.mockTB
               (Sample.errors_New 1%N "oops") []))
  /\ passes Sample.mockTB
       (run (ErrorIs (H := Sample.host) Sample.mockTB
               (Sample.wrap 2%N "wrapped: oops" (Sample.errors_New 1%N "oops"))
               (Sample.errors_New 1%N "oops") []))
  /\ passes Sample.mockTB
       (run (ErrorAs (H := Sample.host) Sample.mockTB
               (Sample.wrap 2%N "wrapped: oops" (Sample.errors_New 1%N "oops"))
               (Sample.New Sample.errorString) []))
  /\ passes Sample.mockTB
       (run (MatchesRegexp (H := Sample.host) Sample.mockTB
               "the night is dark" "night is" [])).
Proof.
  destruct (passing_assertion_reports_nothing (H := Sample.host)
              Sample.mockTB [])
    as (HEqual & HNotEqual & HNil & HNotNil & HErrorIs & HErrorAs & HMatch).
  split; [apply HEqual; reflexivity|].
  split; [apply HNotEqual; reflexivity|].
  split; [apply HNil; reflexivity|].
  split; [apply HNotNil; reflexivity|].
  split; [apply HErrorIs; reflexivity|].
  split; [apply HErrorAs; reflexivity|].
  apply HMatch; reflexivity.
Defined.

(** ** The cases of the package's documentation, on the sample host *)

(** Values of differing dynamic type are not equal, and a nil slice is not
    an empty one for the structural comparison. *)
Example isEqual_dynamic_types :
  isEqual (H := Sample.host) tany
    (VInt (TBasic reflect.Int32) 42) (VInt (TBasic reflect.Int64) 42)
  = Return false
  /\ isEqual (H := Sample.host) tany
       (VSlice (TSlice Sample.tint) (Some (1%N, [Sample.int 42; Sample.int 84])))
       (VSlice (TSlice tany) (Some (2%N, [Sample.int 42; Sample.int 84])))
     = Return false
  /\ isEqual (H := Sample.host) tany
       (VSlice (TSlice Sample.tint) (Some (1%N, [Sample.int 42; Sample.int 84])))
       (VSlice (TSlice Sample.tint) (Some (2%N, [Sample.int 42; Sample.int 84])))
     = Return true
  /\ isEqual (H := Sample.host) tany
       (VSlice (TSlice Sample.tint) None)
       (VSlice (TSlice Sample.tint) (Some (1%N, [])))
     = Return false.
Proof. repeat split. Qed.

(** Pointers and channels: the same one is equal, two channels are not,
    two pointers are when what they point to is. *)
Example isEqual_references :
  isEqual (H := Sample.host) tany
    (VChan (TChan Sample.tint) (Some 1%N)) (VChan (TChan Sample.tint) (Some 2%N))
  = Return false
  /\ isEqual (H := Sample.host) tany
       (VPointer (TPointer Sample.tint) (Some (1%N, Sample.int 42)))
       (VPointer (TPointer Sample.tint) (Some (2%N, Sample.int 84)))
     = Return false
  /\ isEqual (H := Sample.host) tany
       (VPointer (TPointer Sample.tint) (Some (1%N, Sample.int 42)))
       (VPointer (TPointer Sample.tint) (Some (2%N, Sample.int 42)))
     = Return true
  /\ isEqual (H := Sample.host) tany VNil (Sample.int 42) = Return false.
Proof. repeat split. Qed.

(** [ErrorIs] by the shape of [want], as the README shows it. *)
Example ErrorIs_shapes :
  run (ErrorIs (H := Sample.host) Sample.mockTB VNil VNil [])
  = ([CallHelper], Return tt)
  /\ run (ErrorIs (H := Sample.host) Sample.mockTB
            (VString Sample.errType "oops") (str "my bad error") [])
     = ([CallHelper;
         CallErrorf "got: %q; want: %q;%s"
           [VString Sample.errType "oops"; str "my bad error"; str ""]],
        Return tt)
  /\ run (ErrorIs (H := Sample.host) Sample.mockTB
            VNil (VString Sample.errType "oops") [])
     = ([CallHelper;
         CallErrorf "got: <nil>; want: %T(%v);%s"
           [VString Sample.errType "oops"; VString Sample.errType "oops";
            str ""]],
        Return tt)
  /\ run (ErrorIs (H := Sample.host) Sample.mockTB
            (VString Sample.errType "oops") (VType Sample.errType) [])
     = ([CallHelper], Return tt)
  /\ run (ErrorIs (H := Sample.host) Sample.testingT
            (Sample.errors_New 1%N "oops") (Sample.int 0) [])
     = ([CallHelper;
         CallFatalf "unsupported want type: %T" [Sample.int 0]],
        Goexit).
Proof. repeat split. Qed.

(** ** Further properties of the comparator *)

Lemma DeepEqual_sameType (x y : any) :
  DeepEqual x y = true -> TypeOf x = TypeOf y.
Proof.
  unfold DeepEqual. intros E.
  assert (S : sameType (TypeOf x) (TypeOf y) = true).
  { destruct x, y; try discriminate E; try reflexivity;
      destruct (sameType _ _); first [reflexivity | discriminate E]. }
  revert S. destruct (TypeOf x), (TypeOf y); simpl; try discriminate.
  - intros S. apply gotype_eqb_eq in S. congruence.
  - reflexivity.
Qed.

Lemma isEqual_not_Goexit `{Host} (T : gotype) (got want : any) :
  isEqual T got want <> Goexit.
Proof.
  unfold isEqual.
  destruct (isNil got && isNil want); [discriminate|].
  destruct (equaler T got); [discriminate|].
  destruct (assertBytes got); [|discriminate].
  destruct (assertBytes want); discriminate.
Qed.


(** X2. A nil interface for [got] is equal to the wants that pass the
    nilness check and to no other; the comparison returns. *)
Theorem isEqual_nil_got `{Host} (T : gotype) (want : any) :
  isEqual T VNil want = Return (isNil want).
Proof.
  unfold isEqual. simpl.
  destruct (isNil want) eqn:E; [reflexivity|].
  destruct want; try reflexivity; discriminate E.
Qed.

(** X3. Two values of differing dynamic type are not equal when the
    comparison is structural: past the double-nil rule, with no [Equal]
    method on [got] and [got] not a byte slice, the comparator returns
    false. *)
Theorem isEqual_different_types `{Host} (T : gotype) (got want : any) :
  TypeOf got <> TypeOf want ->
  isNil got && isNil want = false ->
  equaler T got = None ->
  assertBytes got = None ->
  isEqual T got want = Return false.
Proof.
  intros Hty Hnil Heq Hb. unfold isEqual. rewrite Hnil, Heq, Hb.
  destruct (DeepEqual got want) eqn:E; [|reflexivity].
  apply DeepEqual_sameType in E. contradiction.
Qed.

(** An [int32] and an [int64] holding 42, and a slice of [int] against a
    slice of [any]. *)
Lemma isEqual_different_types_witness :
  isEqual (H := Sample.host) tany
    (VInt (TBasic reflect.Int32) 42) (VInt (TBasic reflect.Int64) 42)
  = Return false
  /\ isEqual (H := Sample.host) tany
       (VSlice (TSlice Sample.tint) (Some (1%N, [Sample.int 42])))
       (VSlice (TSlice tany) (Some (1%N, [Sample.int 42])))
     = Return false.
Proof.
  split; apply (isEqual_different_types (H := Sample.host));
    solve [reflexivity | discriminate].
Defined.

(** ** Further properties of the assertions *)

(** X4. [Equal] and [NotEqual] are complementary. When the comparator
    answers, exactly one of them reports, through [Errorf], and the other
    passes; when the comparator panics, both panic with its fault and
    report nothing. *)
Theorem Equal_NotEqual_complementary `{Host} (t : TestingT) (T : gotype)
    (got want : any) (msgAndArgs : list any) :
  match isEqual T got want with
  | Return true =>
      passes t (run (Equal t T got want msgAndArgs)) /\
      reportsErrorf t "got: %#v; expected values to be different;%s"
        [got; str (formatMsg msgAndArgs)]
        (run (NotEqual t T got want msgAndArgs))
  | Return false =>
      reportsErrorf t "got: %#v; want: %#v;%s"
        [got; want; str (formatMsg msgAndArgs)]
        (run (Equal t T got want msgAndArgs)) /\
      passes t (run (NotEqual t T got want msgAndArgs))
  | Panic f =>
      run (Equal t T got want msgAndArgs) = (helperLog t, Panic f) /\
      run (NotEqual t T got want msgAndArgs) = (helperLog t, Panic f)
  | Goexit => False
  end.
Proof.
  pose proof (isEqual_not_Goexit T got want) as Hg.
  unfold Equal, NotEqual, reportsErrorf.
  destruct (isEqual T got want) as [[|]|f|];
    [split; run_assertion; auto with assert ..| contradiction].
Qed.

(** X5. [Nil] and [NotNil] are complementary and never panic: on a value
    that passes the nilness check [Nil] passes and [NotNil] reports, on any
    other value it is the reverse. *)
Theorem Nil_NotNil_complementary `{Host} (t : TestingT) (got : any)
    (msgAndArgs : list any) :
  if isNil got then
    passes t (run (Nil t got msgAndArgs)) /\
    reportsErrorf t "got: <nil>; expected non-nil;%s"
      [str (formatMsg msgAndArgs)] (run (NotNil t got msgAndArgs))
  else
    reportsErrorf t "got: %#v; want: <nil>;%s"
      [got; str (formatMsg msgAndArgs)] (run (Nil t got msgAndArgs)) /\
    passes t (run (NotNil t got msgAndArgs)).
Proof.
  unfold Nil, NotNil, reportsErrorf.
  destruct (isNil got) eqn:E; split; run_assertion; rewrite ?E;
    run_steps; auto with assert.
Qed.


(** ** ErrorIs and ErrorAs, case by case *)

Lemma Contains_empty (s : string) : strings.Contains s "" = true.
Proof. destruct s; reflexivity. Qed.

(** X6. With a nil [got], [ErrorAs] reports "got: nil; want assignable
    to: %T;%s" through [Errorf] and returns without calling [errors.As]:
    the run is the same whatever the target, also one on which [errors.As]
    would panic. *)
Theorem ErrorAs_nil_got `{Host} (t : TestingT) (target : any)
    (msgAndArgs : list any) :
  reportsErrorf t "got: nil; want assignable to: %T;%s"
    [target; str (formatMsg msgAndArgs)]
    (run (ErrorAs t VNil target msgAndArgs)).
Proof. unfold ErrorAs, reportsErrorf. run_assertion. reflexivity. Qed.

(** X7. With a [got] that is not the nil interface, [ErrorAs] hands the
    outcome of [errors.As] on: found passes, not found reports once through
    [Errorf], and a panic of [errors.As] (a target that is no non-nil
    pointer) leaves the assertion with nothing reported. *)
Theorem ErrorAs_outcomes `{Host} (t : TestingT) (got target : any)
    (msgAndArgs : list any) :
  notNil got = true ->
  match errors_As got target with
  | Return true => passes t (run (ErrorAs t got target msgAndArgs))
  | Return false =>
      exists format args,
        reportsErrorf t format args (run (ErrorAs t got target msgAndArgs))
  | Panic f => run (ErrorAs t got target msgAndArgs) = (helperLog t, Panic f)
  | Goexit => run (ErrorAs t got target msgAndArgs) = (helperLog t, Goexit)
  end.
Proof.
  intros Hg. unfold ErrorAs, reportsErrorf. run_assertion. rewrite Hg.
  cbn [negb].
  destruct (errors_As got target) as [[|]|f|]; run_steps;
    first [reflexivity | solve [auto with assert]
          | do 2 eexists; reflexivity].
Qed.

(** A target that is not a pointer. *)
Lemma ErrorAs_outcomes_witness :
  run (ErrorAs (H := Sample.host) Sample.mockTB
         (Sample.errors_New 1%N "oops") (Sample.int 0) [])
  = ([CallHelper], Panic InvalidTarget).
Proof.
  exact (ErrorAs_outcomes (H := Sample.host) Sample.mockTB
           (Sample.errors_New 1%N "oops") (Sample.int 0) [] eq_refl).
Defined.

(** X8. When no error is wanted, [ErrorIs] tests [got] against the nil
    interface and not with the nilness check: a nil interface passes, and
    every other [got], a typed nil pointer included, is reported as
    "unexpected error: %s;%s". *)
Theorem ErrorIs_want_nil `{Host} (t : TestingT) (msgAndArgs : list any) :
  passes t (run (ErrorIs t VNil VNil msgAndArgs))
  /\ (forall got : any,
        notNil got = true ->
        reportsErrorf t "unexpected error: %s;%s"
          [got; str (formatMsg msgAndArgs)]
          (run (ErrorIs t got VNil msgAndArgs)))
  /\ (forall ty : gotype,
        isNil (VPointer ty None) = true /\
        reportsErrorf t "unexpected error: %s;%s"
          [VPointer ty None; str (formatMsg msgAndArgs)]
          (run (ErrorIs t (VPointer ty None) VNil msgAndArgs))).
Proof.
  unfold ErrorIs, reportsErrorf.
  split; [|split].
  - run_assertion. auto with assert.
  - intros got Hg. run_assertion. rewrite Hg. reflexivity.
  - intros ty. split; [reflexivity|]. run_assertion. reflexivity.
Qed.

(** An error of [errors.New] where none was wanted. *)
Lemma ErrorIs_want_nil_witness :
  reportsErrorf Sample.mockTB "unexpected error: %s;%s"
    [Sample.errors_New 1%N "oops"; str ""]
    (run (ErrorIs (H := Sample.host) Sample.mockTB
            (Sample.errors_New 1%N "oops") VNil [])).
Proof.
  apply (ErrorIs_want_nil (H := Sample.host) Sample.mockTB []).
  reflexivity.
Defined.

(** X9. A [want] of a shape [ErrorIs] does not know is reported through
    [Fatalf] as "unsupported want type: %T", and [got] is not looked at:
    the run is the same for every [got], the nil one included. *)
Theorem ErrorIs_unsupported_want `{Host} (t : TestingT) (got want : any)
    (msgAndArgs : list any) :
  supportedWant want = false ->
  reportsFatalf t "unsupported want type: %T" [want]
    (run (ErrorIs t got want msgAndArgs)).
Proof.
  intros Hw. unfold ErrorIs, reportsFatalf. run_assertion.
  unfold supportedWant in Hw.
  destruct want; try discriminate Hw;
    destruct (assertString _); try discriminate Hw;
    destruct (errorMethod _); try discriminate Hw;
    run_steps; reflexivity.
Qed.

(** An integer for [want], with [*testing.T] and with the mock. *)
Lemma ErrorIs_unsupported_want_witness :
  run (ErrorIs (H := Sample.host) Sample.testingT VNil (Sample.int 0) [])
  = ([CallHelper; CallFatalf "unsupported want type: %T" [Sample.int 0]],
     Goexit)
  /\ run (ErrorIs (H := Sample.host) Sample.mockTB VNil (Sample.int 0) [])
     = ([CallHelper; CallFatalf "unsupported want type: %T" [Sample.int 0]],
        Return tt).
Proof.
  split;
    apply (ErrorIs_unsupported_want (H := Sample.host)); reflexivity.
Defined.

(** X10. With a plain string for [want], [ErrorIs] passes exactly when the
    text of [got.Error()] contains it, and reports "got: %q; want: %q;%s"
    otherwise; the empty string is contained in every text, so it passes
    for every [got] that has an [Error] method to call. *)
Theorem ErrorIs_want_string `{Host} (t : TestingT) (got : any) (w text : string)
    (msgAndArgs : list any) :
  callError got = Return text ->
  (if strings.Contains text w
   then passes t (run (ErrorIs t got (str w) msgAndArgs))
   else reportsErrorf t "got: %q; want: %q;%s"
          [got; str w; str (formatMsg msgAndArgs)]
          (run (ErrorIs t got (str w) msgAndArgs)))
  /\ passes t (run (ErrorIs t got (str "") msgAndArgs)).
Proof.
  intros Hc. unfold ErrorIs, reportsErrorf.
  split.
  - destruct (strings.Contains text w) eqn:E; run_assertion;
      cbn [str assertString]; rewrite gotype_eqb_refl, Hc; run_steps;
      rewrite E; run_steps; auto with assert.
  - run_assertion. cbn [str assertString]. rewrite gotype_eqb_refl, Hc.
    run_steps. rewrite Contains_empty. auto with assert.
Qed.

(** "the night is dark" contains "night is". *)
Lemma ErrorIs_want_string_witness :
  passes Sample.mockTB
    (run (ErrorIs (H := Sample.host) Sample.mockTB
            (Sample.errors_New 1%N "the night is dark")
            (str "night is") []))
  /\ passes Sample.mockTB
       (run (ErrorIs (H := Sample.host) Sample.mockTB
               (Sample.errors_New 1%N "the night is dark") (str "") [])).
Proof.
  exact (ErrorIs_want_string (H := Sample.host) Sample.mockTB
           (Sample.errors_New 1%N "the night is dark") "night is"
           (text := "the night is dark") [] eq_refl).
Defined.

(** ** What no assertion does *)

Ltac break_match :=
  repeat match goal with
         | |- context [match ?x with _ => _ end] => destruct x
         end.

Ltac unfold_run :=
  unfold Errorf, Fatalf, call, bind, lift, ret; cbn [fst snd].

Ltac one_report :=
  first
    [ left; reflexivity
    | right; do 2 eexists; left; reflexivity
    | right; do 2 eexists; right; reflexivity ].

(** X11. Every assertion calls [Helper] first, if the handle has it, and
    then makes at most one report, through [Errorf] or [Fatalf]: the
    unformatted [Error] and [Fatal] are never called, and no input makes
    an assertion report twice. *)
Theorem assertions_report_at_most_once `{Host} (t : TestingT)
    (msgAndArgs : list any) :
  (forall T got want,
      atMostOneReport t (fst (run (Equal t T got want msgAndArgs))))
  /\ (forall T got want,
        atMostOneReport t (fst (run (NotEqual t T got want msgAndArgs))))
  /\ (forall got, atMostOneReport t (fst (run (Nil t got msgAndArgs))))
  /\ (forall got, atMostOneReport t (fst (run (NotNil t got msgAndArgs))))
  /\ (forall got want,
        atMostOneReport t (fst (run (ErrorIs t got want msgAndArgs))))
  /\ (forall got target,
        atMostOneReport t (fst (run (ErrorAs t got target msgAndArgs))))
  /\ (forall got pattern,
        atMostOneReport t (fst (run (MatchesRegexp t got pattern msgAndArgs)))).
Proof.
  unfold atMostOneReport.
  repeat apply conj; intros.
  - unfold Equal. rewrite run_Helper. unfold_run.
    destruct (isEqual T got want) as [[|]|f|]; one_report.
  - unfold NotEqual. rewrite run_Helper. unfold_run.
    destruct (isEqual T got want) as [[|]|f|]; one_report.
  - unfold Nil. rewrite run_Helper. unfold_run.
    destruct (isNil got); one_report.
  - unfold NotNil. rewrite run_Helper. unfold_run.
    destruct (isNil got); one_report.
  - unfold ErrorIs. rewrite run_Helper. unfold_run.
    destruct want; cbn [notNil assertString];
      break_match; cbn [fst]; one_report.
  - unfold ErrorAs. rewrite run_Helper. unfold_run.
    break_match; cbn [fst]; one_report.
  - unfold MatchesRegexp. rewrite run_Helper. unfold_run.
    break_match; cbn [fst]; one_report.
Qed.

Lemma helperLog_no_fatal (t : TestingT) : existsb isFatal (helperLog t) = false.
Proof. unfold helperLog. destruct (implementsHelper t); reflexivity. Qed.

Lemma helperLog_fatal (t : TestingT) (e : event) :
  existsb isFatal (helperLog t ++ [e]) = isFatal e.
Proof.
  unfold helperLog. destruct (implementsHelper t); simpl;
    destruct (isFatal e); reflexivity.
Qed.

Ltac fatal_count :=
  cbn [fst snd negb];
  rewrite ?helperLog_no_fatal, ?helperLog_fatal; reflexivity.

(** X12. [Equal], [NotEqual], [Nil], [NotNil] and [ErrorAs] never make a
    fatal report, whatever they are given: a failing comparison leaves the
    test running. *)
Theorem comparisons_never_fatal `{Host} (t : TestingT)
    (msgAndArgs : list any) :
  (forall T got want,
      existsb isFatal (fst (run (Equal t T got want msgAndArgs))) = false)
  /\ (forall T got want,
        existsb isFatal (fst (run (NotEqual t T got want msgAndArgs))) = false)
  /\ (forall got,
        existsb isFatal (fst (run (Nil t got msgAndArgs))) = false)
  /\ (forall got,
        existsb isFatal (fst (run (NotNil t got msgAndArgs))) = false)
  /\ (forall got target,
        existsb isFatal (fst (run (ErrorAs t got target msgAndArgs))) = false).
Proof.
  repeat apply conj; intros.
  - unfold Equal. rewrite run_Helper. unfold_run.
    destruct (isEqual T got want) as [[|]|f|]; fatal_count.
  - unfold NotEqual. rewrite run_Helper. unfold_run.
    destruct (isEqual T got want) as [[|]|f|]; fatal_count.
  - unfold Nil. rewrite run_Helper. unfold_run.
    destruct (isNil got); fatal_count.
  - unfold NotNil. rewrite run_Helper. unfold_run.
    destruct (isNil got); fatal_count.
  - unfold ErrorAs. rewrite run_Helper. unfold_run.
    break_match; fatal_count.
Qed.

(** X13. [ErrorIs] makes a fatal report exactly when the shape of [want]
    is not one it knows; the four known shapes are reported through
    [Errorf] at most, whatever [got] is and however the run ends. *)
Theorem ErrorIs_fatal_iff_unsupported `{Host} (t : TestingT) (got want : any)
    (msgAndArgs : list any) :
  existsb isFatal (fst (run (ErrorIs t got want msgAndArgs)))
  = negb (supportedWant want).
Proof.
  unfold ErrorIs, supportedWant. rewrite run_Helper. unfold_run.
  destruct want; cbn [notNil assertString];
    break_match; cbn [negb]; fatal_count.
Qed.

(** X14. [MatchesRegexp] never panics.  It makes a fatal report exactly
    when the pattern does not compile, and it returns in every case but
    one: the pattern did not compile and the fatal report of the handle
    does not come back. *)
Theorem MatchesRegexp_outcome `{Host} (t : TestingT) (got pattern : string)
    (msgAndArgs : list any) :
  existsb isFatal (fst (run (MatchesRegexp t got pattern msgAndArgs)))
  = match snd (regexp_MatchString pattern got) with
    | Some _ => true
    | None => false
    end
  /\ snd (run (MatchesRegexp t got pattern msgAndArgs))
     = match snd (regexp_MatchString pattern got) with
       | Some _ => if fatalReturns t then Return tt else Goexit
       | None => Return tt
       end.
Proof.
  unfold MatchesRegexp. rewrite run_Helper. unfold_run.
  destruct (regexp_MatchString pattern got) as [matched [errMsg|]];
    destruct matched, (fatalReturns t); cbn [snd negb];
    (split; [fatal_count | reflexivity]).
Qed.

(** ** The first version *)

Lemma length_zero (m : string) : Nat.eqb (String.length m) 0 = String.eqb m "".
Proof. destruct m; reflexivity. Qed.

Lemma append_assoc (a b c : string) : (a ++ b) ++ c = a ++ (b ++ c).
Proof. induction a as [|x a IH]; simpl; congruence. Qed.

Lemma Join_snoc (a : string) (rest : list string) (x sep : string) :
  strings.Join (a :: rest ++ [x]) sep = strings.Join (a :: rest) sep ++ sep ++ x.
Proof.
  revert a. induction rest as [|b rest IH]; intros a.
  - reflexivity.
  - change (strings.Join (a :: (b :: rest) ++ [x]) sep)
      with (a ++ sep ++ strings.Join (b :: rest ++ [x]) sep).
    change (strings.Join (a :: b :: rest) sep)
      with (a ++ sep ++ strings.Join (b :: rest) sep).
    rewrite IH, !append_assoc. reflexivity.
Qed.

(** X15. The suffix of the first version is empty exactly when there is no
    message or the first one is empty, whatever follows it; otherwise it is
    a space and the messages joined by "; ", so that one more message adds
    "; " and that message at the end. *)
Theorem V1_formatMsg_cases :
  (forall msg : list string,
      V1.formatMsg msg = "" <->
      msg = [] \/ exists rest, msg = "" :: rest)
  /\ (forall m : string, m <> "" -> V1.formatMsg [m] = " " ++ m)
  /\ (forall (m : string) (rest : list string) (x : string),
        m <> "" ->
        V1.formatMsg (m :: rest ++ [x])
        = V1.formatMsg (m :: rest) ++ "; " ++ x).
Proof.
  split; [|split].
  - intros [|m rest]; unfold V1.formatMsg.
    + split; auto.
    + rewrite length_zero. destruct (String.eqb_spec m "") as [->|Hm].
      * split; eauto.
      * split; [discriminate|].
        intros [E | [r E]]; [discriminate E|]. congruence.
  - intros m Hm. unfold V1.formatMsg. rewrite length_zero.
    destruct (String.eqb_spec m ""); [contradiction | reflexivity].
  - intros m rest x Hm. unfold V1.formatMsg. rewrite length_zero.
    destruct (String.eqb_spec m ""); [contradiction|].
    rewrite Join_snoc.
    change ((" " ++ strings.Join (m :: rest) "; ") ++ "; " ++ x)
      with (" " ++ (strings.Join (m :: rest) "; " ++ "; " ++ x)).
    reflexivity.
Qed.

(** "one" and "two" give " one; two"; an empty first message hides the
    second. *)
Lemma V1_formatMsg_cases_witness :
  V1.formatMsg ["one"] = " one"
  /\ V1.formatMsg ["one"; "two"] = " one; two"
  /\ V1.formatMsg [""; "two"] = "".
Proof.
  destruct V1_formatMsg_cases as (Hempty & Hone & Hmore).
  split; [apply Hone; discriminate|].
  split; [apply (Hmore "one" [] "two"); discriminate|].
  apply Hempty. right. eexists. reflexivity.
Defined.

(** X16. [True] and [False] are complementary: on true [True] passes and
    [False] reports "got: true; want: false;%s", on false it is the
    reverse; neither panics nor reports fatally. *)
Theorem V1_True_False_complementary `{Host} (t : TestingT) (got : bool)
    (msg : list string) :
  if got then
    passes t (run (V1.True t got msg)) /\
    reportsErrorf t "got: true; want: false;%s" [str (V1.formatMsg msg)]
      (run (V1.False t got msg))
  else
    reportsErrorf t "got: false; want: true;%s" [str (V1.formatMsg msg)]
      (run (V1.True t got msg)) /\
    passes t (run (V1.False t got msg)).
Proof.
  unfold V1.True, V1.False, reportsErrorf.
  destruct got; split; run_assertion; auto with assert.
Qed.

Lemma formatMsg_plain `{Host} (msg : list string) :
  plainMessage msg = true -> V1.formatMsg msg = formatMsg (map str msg).
Proof.
  destruct msg as [|m [|m' rest]]; try discriminate; [reflexivity|].
  unfold plainMessage, V1.formatMsg. rewrite length_zero.
  intros Hm. destruct (String.eqb m ""); [discriminate|].
  reflexivity.
Qed.

(** X17. The two versions agree on every call that passes no message or a
    single message that is not empty: each assertion the versions share
    makes the same calls on the handle and ends the same way.  They part
    on the empty message, which the first version drops and the second
    turns into a space. *)
Theorem versions_agree `{Host} (t : TestingT) (msg : list string) :
  plainMessage msg = true ->
  (forall T got want,
      run (V1.Equal t T got want msg) = run (Equal t T got want (map str msg)))
  /\ (forall T got want,
        run (V1.NotEqual t T got want msg)
        = run (NotEqual t T got want (map str msg)))
  /\ (forall got, run (V1.Nil t got msg) = run (Nil t got (map str msg)))
  /\ (forall got, run (V1.NotNil t got msg) = run (NotNil t got (map str msg)))
  /\ (forall got want,
        run (V1.ErrorIs t got want msg)
        = run (ErrorIs t got want (map str msg)))
  /\ (forall got pattern,
        run (V1.MatchesRegexp t got pattern msg)
        = run (MatchesRegexp t got pattern (map str msg)))
  /\ V1.formatMsg [""] = "" /\ formatMsg [str ""] = " ".
Proof.
  intros Hp. apply formatMsg_plain in Hp.
  unfold V1.Equal, V1.NotEqual, V1.Nil, V1.NotNil, V1.ErrorIs,
    V1.MatchesRegexp, Equal, NotEqual, Nil, NotNil, ErrorIs, MatchesRegexp.
  rewrite Hp. repeat split.
Qed.

(** [assert.Equal(t, 1, 2, "3 times around the moon")] in both versions. *)
Lemma versions_agree_witness :
  run (V1.Equal (H := Sample.host) Sample.mockTB tany
         (Sample.int 1) (Sample.int 2) ["3 times around the moon"])
  = run (Equal (H := Sample.host) Sample.mockTB tany
           (Sample.int 1) (Sample.int 2) [str "3 times around the moon"]).
Proof.
  apply (versions_agree (H := Sample.host) Sample.mockTB
           ["3 times around the moon"] eq_refl).
Defined.

(** ** The mock handle *)

Lemma mock_replay_flags `{Host} (log : list event) (m : Mock.mockTB) :
  Mock.failed (Mock.replay log m) = Mock.failed m || existsb isReport log
  /\ Mock.fatal (Mock.replay log m) = Mock.fatal m || existsb isFatal log.
Proof.
  revert m. induction log as [|e log IH]; intros m; simpl.
  - rewrite !orb_false_r. auto.
  - unfold Mock.replay in IH |- *. simpl.
    destruct (IH (Mock.step m e)) as [-> ->].
    destruct e; simpl; rewrite ?orb_true_r, ?orb_false_r; auto;
      destruct (Mock.failed m), (Mock.fatal m); auto.
Qed.

(** X18. What the mock records: [failed] tells whether one of the four
    reports was made, [fatal] whether one of the two fatal ones was, so a
    mock that is fatal has failed; and [msg] is the text of the last
    report, earlier ones being overwritten. *)
Theorem mock_records `{Host} (log : list event) :
  Mock.failed (Mock.replay log Mock.fresh) = existsb isReport log
  /\ Mock.fatal (Mock.replay log Mock.fresh) = existsb isFatal log
  /\ (Mock.fatal (Mock.replay log Mock.fresh) = true ->
      Mock.failed (Mock.replay log Mock.fresh) = true)
  /\ (forall format args,
        Mock.msg (Mock.replay (log ++ [CallErrorf format args]) Mock.fresh)
        = fmt_Sprintf format args)
  /\ (forall format args,
        Mock.msg (Mock.replay (log ++ [CallFatalf format args]) Mock.fresh)
        = fmt_Sprintf format args).
Proof.
  destruct (mock_replay_flags log Mock.fresh) as [Hfailed Hfatal].
  simpl in Hfailed, Hfatal.
  split; [exact Hfailed|]. split; [exact Hfatal|]. split.
  - rewrite Hfailed, Hfatal. clear. induction log as [|e log IH]; simpl.
    + discriminate.
    + destruct e; simpl; auto.
  - split; intros format args; unfold Mock.replay;
      rewrite fold_left_app; reflexivity.
Qed.

(** A fatal report after a plain one. *)
Lemma mock_records_witness :
  Mock.failed
    (Mock.replay (H := Sample.host)
       [CallErrorf "got: %v" [Sample.int 1]; CallFatalf "stop" []]
       Mock.fresh) = true.
Proof.
  apply (mock_records (H := Sample.host)
           [CallErrorf "got: %v" [Sample.int 1]; CallFatalf "stop" []]).
  reflexivity.
Defined.

(** X19. [Equal] seen through the mock, as the tests look at it: after the
    call [failed] is set exactly when the comparator answered false,
    [fatal] is not set, and on a failure [msg] is the format
    "got: %#v; want: %#v;%s" rendered with [got], [want] and the suffix.
    [NotEqual] sets [failed] exactly when the comparator answered true. *)
Theorem mock_after_Equal `{Host} (T : gotype) (got want : any)
    (msgAndArgs : list any) (b : bool) :
  isEqual T got want = Return b ->
  Mock.failed (Mock.after (run (Equal Sample.mockTB T got want msgAndArgs)))
  = negb b
  /\ Mock.fatal (Mock.after (run (Equal Sample.mockTB T got want msgAndArgs)))
     = false
  /\ (b = false ->
      Mock.msg (Mock.after (run (Equal Sample.mockTB T got want msgAndArgs)))
      = fmt_Sprintf "got: %#v; want: %#v;%s"
          [got; want; str (formatMsg msgAndArgs)])
  /\ Mock.failed
       (Mock.after (run (NotEqual Sample.mockTB T got want msgAndArgs)))
     = b
  /\ Mock.fatal
       (Mock.after (run (NotEqual Sample.mockTB T got want msgAndArgs)))
     = false.
Proof.
  intros He. unfold Mock.after, Equal, NotEqual.
  rewrite !run_Helper, He, !bind_lift_Return.
  destruct b; repeat split; try discriminate; reflexivity.
Qed.

(** The mismatch of 42 and 84 on the mock. *)
Lemma mock_after_Equal_witness :
  Mock.failed
    (Mock.after (H := Sample.host)
       (run (Equal (H := Sample.host) Sample.mockTB tany
               (Sample.int 42) (Sample.int 84) [])))
  = true
  /\ Mock.fatal
       (Mock.after (H := Sample.host)
          (run (Equal (H := Sample.host) Sample.mockTB tany
                  (Sample.int 42) (Sample.int 84) [])))
     = false.
Proof.
  destruct (mock_after_Equal (H := Sample.host) tany
              (Sample.int 42) (Sample.int 84) [] (b := false) eq_refl)
    as (Hfailed & Hfatal & _).
  split; [exact Hfailed | exact Hfatal].
Defined.

(** ** Nil against non-nil *)

(** X20. What the nilness check accepts: the nil interface and the nil
    channel, function, map, pointer and slice of any type.  Everything
    else is not nil, in particular booleans, numbers, strings, arrays,
    structs, and references that are set, such as an empty slice or map. *)
Theorem isNil_cases (v : any) :
  isNil v = true <->
  v = VNil \/
  exists ty, v = VChan ty None \/ v = VFunc ty None \/ v = VMap ty None \/
             v = VPointer ty None \/ v = VSlice ty None.
Proof.
  split.
  - destruct v as [| | | | |ty [c|]|ty [f|]|ty [m|]|ty [p|]|ty [s|]| | |];
      try (intros E; discriminate E);
      try (simpl; destruct (kind_of_type ty); intros E; discriminate E);
      intros _; first [left; reflexivity | right; exists ty; tauto].
  - intros [->|[ty [->|[->|[->|[->| ->]]]]]]; reflexivity.
Qed.

(** A nil map passes the nilness check. *)
Lemma isNil_cases_witness :
  isNil (VMap (TMap tstring Sample.tint) None) = true.
Proof.
  apply isNil_cases. right. exists (TMap tstring Sample.tint). tauto.
Defined.

#[local] Arguments gotype_eqb : simpl never.

Lemma DeepEqual_nil_vs_set (x y : any) :
  isNil x = negb (isNil y) -> DeepEqual x y = false.
Proof.
  intros E. destruct (DeepEqual x y) eqn:D; [|reflexivity].
  pose proof (DeepEqual_sameType _ _ D) as Hty.
  destruct x as [| | | | |ty [c|]|ty [f|]|ty [m|]|ty [p|]|ty [s|]| | |],
           y as [| | | | |uy [c'|]|uy [f'|]|uy [m'|]|uy [p'|]|uy [s'|]| | |];
    try discriminate Hty; try discriminate D;
    try (injection Hty as Hty; try subst);
    simpl in E; try discriminate E;
    try (destruct (kind_of_type _); discriminate E);
    unfold DeepEqual in D; simpl in D;
    rewrite ?gotype_eqb_refl in D; simpl in D;
    repeat match goal with
           | q : (_ * _)%type |- _ => destruct q
           end;
    simpl in D; discriminate D.
Qed.

(** X21. When the comparison is structural ([got] has no [Equal] method
    for the compared type and is not a byte slice), a value that passes the
    nilness check and one that does not are never equal, in either order:
    a nil slice is not an empty slice, a nil map is not an empty map. *)
Theorem isEqual_nil_vs_non_nil `{Host} (T : gotype) (got want : any) :
  isNil got = negb (isNil want) ->
  equaler T got = None ->
  assertBytes got = None ->
  isEqual T got want = Return false.
Proof.
  intros Hn Heq Hb. unfold isEqual. rewrite Heq, Hb, Hn.
  rewrite (DeepEqual_nil_vs_set got want Hn).
  destruct (isNil want); reflexivity.
Qed.

(** A nil slice of [int] against an empty one, and a set pointer against
    the nil interface. *)
Lemma isEqual_nil_vs_non_nil_witness :
  isEqual (H := Sample.host) tany
    (VSlice (TSlice Sample.tint) None)
    (VSlice (TSlice Sample.tint) (Some (1%N, []))) = Return false
  /\ isEqual (H := Sample.host) tany
       (VPointer (TPointer Sample.tint) (Some (1%N, Sample.int 42))) VNil
     = Return false.
Proof.
  split; apply (isEqual_nil_vs_non_nil (H := Sample.host)); reflexivity.
Defined.

(** ** The remaining shapes of want *)

(** X22. With an error for [want], [ErrorIs] passes when [errors.Is]
    finds it in the chain of [got]; otherwise it reports through [Errorf],
    and the report describes [got] as "<nil>" whenever [got] passes the
    nilness check, a typed nil pointer included, and by type and text
    otherwise. *)
Theorem ErrorIs_want_error `{Host} (t : TestingT) (got want : any)
    (msgAndArgs : list any) :
  want <> VNil -> assertString want = None -> errorMethod want <> None ->
  if errors_Is got want then
    passes t (run (ErrorIs t got want msgAndArgs))
  else if isNil got then
    reportsErrorf t "got: <nil>; want: %T(%v);%s"
      [want; want; str (formatMsg msgAndArgs)]
      (run (ErrorIs t got want msgAndArgs))
  else
    reportsErrorf t "got: %T(%v); want: %T(%v);%s"
      [got; got; want; want; str (formatMsg msgAndArgs)]
      (run (ErrorIs t got want msgAndArgs)).
Proof.
  intros Hnil Hs He. unfold ErrorIs, reportsErrorf. run_assertion.
  destruct want; try contradiction; rewrite Hs;
    destruct (errorMethod _); try contradiction;
    destruct (errors_Is got _), (isNil got);
    run_steps; auto with assert.
Qed.

(** No error got where [errType("oops")] was wanted. *)
Lemma ErrorIs_want_error_witness :
  reportsErrorf Sample.mockTB "got: <nil>; want: %T(%v);%s"
    [VString Sample.errType "oops"; VString Sample.errType "oops"; str ""]
    (run (ErrorIs (H := Sample.host) Sample.mockTB
            VNil (VString Sample.errType "oops") [])).
Proof.
  refine (ErrorIs_want_error (H := Sample.host) Sample.mockTB VNil
            (want := VString Sample.errType "oops") [] _ eq_refl _);
    [|vm_compute]; discriminate.
Defined.

(** X23. With a type descriptor for [want], [ErrorIs] searches the chain
    with [errors.As] and a fresh target of that type: found passes, not
    found reports "got: %T; want: %v;%s" through [Errorf], and a panic of
    [errors.As], as for a described type that is no error, leaves the
    assertion with nothing reported. *)
Theorem ErrorIs_want_type `{Host} (t : TestingT) (got : any) (w : gotype)
    (msgAndArgs : list any) :
  errorMethod (VType w) = None ->
  match errors_As got (reflect_New w) with
  | Return true => passes t (run (ErrorIs t got (VType w) msgAndArgs))
  | Return false =>
      reportsErrorf t "got: %T; want: %v;%s"
        [got; VType w; str (formatMsg msgAndArgs)]
        (run (ErrorIs t got (VType w) msgAndArgs))
  | Panic f => run (ErrorIs t got (VType w) msgAndArgs) = (helperLog t, Panic f)
  | Goexit => run (ErrorIs t got (VType w) msgAndArgs) = (helperLog t, Goexit)
  end.
Proof.
  intros He. unfold ErrorIs, reportsErrorf. run_assertion.
  cbn [assertString]. rewrite He.
  destruct (errors_As got (reflect_New w)) as [[|]|f|]; run_steps;
    first [reflexivity | solve [auto with assert]].
Qed.

(** The descriptor of [int], which is no error. *)
Lemma ErrorIs_want_type_witness :
  run (ErrorIs (H := Sample.host) Sample.mockTB
         (Sample.errors_New 1%N "oops") (VType Sample.tint) [])
  = ([CallHelper], Panic InvalidTarget).
Proof.
  exact (ErrorIs_want_type (H := Sample.host) Sample.mockTB
           (Sample.errors_New 1%N "oops") Sample.tint [] eq_refl).
Defined.

(** ** The formatter on other values *)

(** X24. A first argument that is not a plain string, a value of a named
    string type included, is never used as a template: alone it is
    rendered by [fmt.Sprint], and with more arguments all of them are,
    the first one too; the suffix still begins with a space. *)
Theorem formatMsg_non_string `{Host} (m : any) (rest : list any) :
  assertString m = None ->
  formatMsg [m] = " " ++ fmt_Sprint [m]
  /\ formatMsg (m :: rest) = " " ++ fmt_Sprint (m :: rest)
  /\ (forall (name s : string),
        assertString (VString (TNamed name reflect.String) s) = None).
Proof.
  intros Hm. unfold formatMsg. rewrite Hm.
  split; [reflexivity|]. split; [destruct rest; reflexivity|].
  intros name s. reflexivity.
Qed.

(** An integer and an [errType] as the only argument. *)
Lemma formatMsg_non_string_witness :
  formatMsg (H := Sample.host) [Sample.int 3] = " 3"
  /\ formatMsg (H := Sample.host) [Sample.int 3; Sample.int 4] = " 3 4".
Proof.
  destruct (formatMsg_non_string (H := Sample.host)
              (Sample.int 3) [Sample.int 4] eq_refl) as (H1 & H2 & _).
  split; [exact H1 | exact H2].
Defined.
